(** * SCTP support of package net: addresses, connections, listeners

    A shallow embedding of [net/sctpsock.go], [net/sctpsock_unix.go] and the
    [setSCTPNoDelay] variants, with the properties of the design document
    stated and settled against it.

    Conventions of the embedding:
    - a Go pointer that may be nil is an [option]; dereferencing [None]
      panics (see [deref]);
    - a Go slice keeps the difference between the nil slice ([None]) and an
      allocated slice of length zero ([Some []]);
    - Go's [int] is [Z]; no operation here does arithmetic on it;
    - every function of the socket layer, of the resolver or of the kernel
      that the SCTP code calls is a [Call]; running one records it in a
      trace and asks the [Provider] for the answer. *)

From Stdlib Require Import ZArith List String Bool Lia.
From Stdlib Require Import Strings.Byte.
Import ListNotations.
Local Open Scope string_scope.
Local Open Scope list_scope.
Local Open Scope Z_scope.

(* ================================================================== *)
(** * Constants of package syscall (linux values) *)
(* ================================================================== *)

Module syscall.
Definition AF_INET : Z := 2.
Definition AF_INET6 : Z := 10.
Definition SOCK_STREAM : Z := 1.
Definition IPPROTO_SCTP : Z := 132.
Definition SCTP_NODELAY : Z := 3.
Definition EINVAL : Z := 22.
End syscall.

(* ================================================================== *)
(** * IP addresses (net/ip.go) *)
(* ================================================================== *)

(** [type IP []byte]: [None] is the nil slice. *)
Definition IP : Type := option (list byte).

Definition IPv4len : nat := 4.
Definition IPv6len : nat := 16.

Definition len (ip : IP) : nat :=
  match ip with
  | None => 0%nat
  | Some l => List.length l
  end.

Definition bytes (ip : IP) : list byte :=
  match ip with
  | None => []
  | Some l => l
  end.

(** [ip[i:j]] on the bytes of a slice, for [i <= j <= len(ip)]. *)
Definition slice (l : list byte) (i j : nat) : list byte :=
  firstn (j - i) (skipn i l).

Fixpoint bytesEqual (x y : list byte) : bool :=
  match x, y with
  | [], [] => true
  | a :: x', b :: y' => Byte.eqb a b && bytesEqual x' y'
  | _, _ => false
  end.

Definition isZeros (p : list byte) : bool :=
  forallb (fun b => Byte.eqb b x00) p.

Definition v4InV6Prefix : list byte :=
  [x00; x00; x00; x00; x00; x00; x00; x00; x00; x00; xff; xff].

(** [IPv4(a, b, c, d)]: the 16-byte form of the IPv4 address a.b.c.d. *)
Definition IPv4 (a b c d : byte) : IP :=
  Some (v4InV6Prefix ++ [a; b; c; d]).

Definition IPv4zero : IP := IPv4 x00 x00 x00 x00.
Definition IPv6unspecified : IP := Some (repeat x00 16).

(** Modelled from the spec: [IP.To4] of net/ip.go is not among the sources.
    It is the detection of "the IPv4-mapped form" of section 4.1: a 4-byte
    address is returned as it is, a 16-byte address whose first ten bytes are
    zero and whose next two are 0xff yields its last four bytes, and
    everything else yields nil. *)
Definition To4 (ip : IP) : IP :=
  if Nat.eqb (len ip) IPv4len then ip
  else if Nat.eqb (len ip) IPv6len
          && isZeros (slice (bytes ip) 0 10)
          && Byte.eqb (nth 10 (bytes ip) x00) xff
          && Byte.eqb (nth 11 (bytes ip) x00) xff
       then Some (slice (bytes ip) 12 16)
       else None.

(** Modelled from the spec: [IP.Equal] of net/ip.go is not among the sources.
    An IPv4 address and the same address in IPv4-mapped form are equal. *)
Definition Equal (ip x : IP) : bool :=
  if Nat.eqb (len ip) (len x) then bytesEqual (bytes ip) (bytes x)
  else if Nat.eqb (len ip) IPv4len && Nat.eqb (len x) IPv6len then
    bytesEqual (slice (bytes x) 0 12) v4InV6Prefix
    && bytesEqual (bytes ip) (skipn 12 (bytes x))
  else if Nat.eqb (len ip) IPv6len && Nat.eqb (len x) IPv4len then
    bytesEqual (slice (bytes ip) 0 12) v4InV6Prefix
    && bytesEqual (skipn 12 (bytes ip)) (bytes x)
  else false.

(** Modelled from the spec: [IP.IsUnspecified] of net/ip.go is not among the
    sources. "The unspecified address for its family" (section 4.1) is the
    IPv4 address 0.0.0.0 or the IPv6 address "::". *)
Definition IsUnspecified (ip : IP) : bool :=
  Equal ip IPv4zero || Equal ip IPv6unspecified.

(* ================================================================== *)
(** * SCTPAddr *)
(* ================================================================== *)

(** [type SCTPAddr struct { IP IP; Port int; Zone string }].  The field [IP]
    is [sIP] here, the name [IP] being the type's. *)
Record SCTPAddr : Type := mkSCTPAddr {
  sIP : IP;
  Port : Z;
  Zone : string
}.

(** The zero value [SCTPAddr{}]. *)
Definition SCTPAddr_zero : SCTPAddr := mkSCTPAddr None 0 "".

(** [func (a *SCTPAddr) family() int] *)
Definition family (a : option SCTPAddr) : Z :=
  match a with
  | None => syscall.AF_INET
  | Some s =>
      if Nat.leb (len (sIP s)) IPv4len then syscall.AF_INET
      else match To4 (sIP s) with
           | Some _ => syscall.AF_INET
           | None => syscall.AF_INET6
           end
  end.

(** [func (a *SCTPAddr) isWildcard() bool] *)
Definition isWildcard (a : option SCTPAddr) : bool :=
  match a with
  | None => true
  | Some s =>
      match sIP s with
      | None => true
      | Some _ => IsUnspecified (sIP s)
      end
  end.

(* ------------------------------------------------------------------ *)
(** ** The vocabulary of the design document for addresses *)
(* ------------------------------------------------------------------ *)

(** An IPv4-mapped IPv6 address: sixteen bytes, ::ffff:a.b.c.d. *)
Definition IPv4Mapped (ip : IP) : Prop :=
  exists a b c d : byte, ip = IPv4 a b c d.

(** The condition under which the document makes the family v4. *)
Definition v4Address (a : option SCTPAddr) : Prop :=
  a = None \/
  exists s, a = Some s /\ ((len (sIP s) <= 4)%nat \/ IPv4Mapped (sIP s)).

(** "ip is empty": no byte, whether the slice is nil or allocated. *)
Definition emptyIP (ip : IP) : Prop := len ip = 0%nat.

(** "the unspecified address for its family": 0.0.0.0 as four bytes or in
    IPv4-mapped form, or sixteen zero bytes. *)
Definition unspecifiedIP (ip : IP) : Prop :=
  ip = Some [x00; x00; x00; x00] \/ ip = IPv4zero \/ ip = IPv6unspecified.

(** The addresses of section 8. *)
Definition ip_127_0_0_1 : IP := Some [x7f; x00; x00; x01].
Definition ip_mapped_127_0_0_1 : IP := IPv4 x7f x00 x00 x01.
Definition ip_loopback6 : IP := Some (repeat x00 15 ++ [x01]).

(* ================================================================== *)
(** * Addresses as interface values, errors, handles *)
(* ================================================================== *)

(** A value of the interface [Addr]: nil, a non-nil [*SCTPAddr], or an
    address of another network. *)
Inductive Addr : Type :=
| AddrNil
| AddrSCTP (a : SCTPAddr)
| AddrOther (network text : string).

(** [func (a *SCTPAddr) opAddr() Addr] *)
Definition opAddr (a : option SCTPAddr) : Addr :=
  match a with
  | None => AddrNil
  | Some s => AddrSCTP s
  end.

(** The error values that occur; a Go [error] that may be nil is an
    [option error]. *)
Inductive error : Type :=
| Errno (e : Z)
| errMissingAddress
| errClosing
| io_EOF
| UnknownNetworkError (net : string)
| SyscallError (Syscall : string) (Err : error)
| OpError (Op Net : string) (Source Addr_ : Addr) (Err : error)
| errorString (s : string).

Definition EINVAL : error := Errno syscall.EINVAL.

(** [err != io.EOF] on a non-nil error. *)
Definition is_EOF (e : error) : bool :=
  match e with
  | io_EOF => true
  | _ => false
  end.

(** The fields of [netFD] that the SCTP code reads. *)
Record netFD : Type := mkNetFD {
  sysfd : Z;
  net : string;
  laddr : Addr;
  raddr : Addr
}.

(** [type SCTPConn struct { conn }], [conn] holding [fd *netFD]. *)
Record SCTPConn : Type := mkSCTPConn { c_fd : option netFD }.

(** [type SCTPListener struct { fd *netFD }] *)
Record SCTPListener : Type := mkSCTPListener { l_fd : option netFD }.

Inductive Context : Type := Background.

(** Values the SCTP code only passes along. *)
Inductive Reader : Type := reader (id : Z).
Inductive File : Type := file (id : Z).
Definition Time : Type := Z.
Definition Duration : Type := Z.
Definition addrList : Type := list Addr.

(* ================================================================== *)
(** * The socket primitive provider *)
(* ================================================================== *)

(** The functions outside the SCTP files, indexed by what they return. *)
Inductive Call : Type -> Type :=
| internetSocket (ctx : Context) (network : string)
    (la ra : option SCTPAddr) (sotype proto : Z) (mode : string)
  : Call (option netFD * option error)
| netFD_accept (fd : netFD) : Call (option netFD * option error)
| netFD_Close (fd : netFD) : Call (option error)
| netFD_closeRead (fd : netFD) : Call (option error)
| netFD_closeWrite (fd : netFD) : Call (option error)
| netFD_dup (fd : netFD) : Call (option File * option error)
| pfd_SetDeadline (fd : netFD) (t : Time) : Call (option error)
| fdmu_incref (fd : netFD) : Call bool
| fdmu_decref (fd : netFD) : Call unit
| setsockopt (s level name value : Z) : Call Z
| setLinger (fd : netFD) (sec : Z) : Call (option error)
| setKeepAlive (fd : netFD) (keepalive : bool) : Call (option error)
| setKeepAlivePeriod (fd : netFD) (d : Duration) : Call (option error)
| sendFile (fd : netFD) (r : Reader) : Call (Z * option error * bool)
| genericReadFrom (c : SCTPConn) (r : Reader) : Call (Z * option error)
| internetAddrList (ctx : Context) (network address : string)
  : Call (addrList * option error)
| testHookDialSCTP_call (ctx : Context) (network : string)
    (la ra : option SCTPAddr)
  : Call (option SCTPConn * option error).

Definition Event : Type := {R : Type & Call R}.
Definition ev {R : Type} (c : Call R) : Event := existT Call R c.
Definition Trace : Type := list Event.

(** What is outside the SCTP code: the answers of the provider, which may
    depend on everything that was called before; whether the test hook is
    set; and [addrList.forResolve] of net/ipsock.go. *)
Record World : Type := mkWorld {
  respond : forall R : Type, Trace -> Call R -> R;
  testHookDialSCTP : bool;
  forResolve : addrList -> string -> string -> Addr
}.

(* ------------------------------------------------------------------ *)
(** ** Computations: a trace of calls, and panics *)
(* ------------------------------------------------------------------ *)

Inductive outcome (A : Type) : Type :=
| Returned (a : A)
| Panicked.
Arguments Returned {A} a.
Arguments Panicked {A}.

Definition M (A : Type) : Type := World -> Trace -> outcome A * Trace.

Definition ret {A : Type} (a : A) : M A := fun _ tr => (Returned a, tr).

Definition bind {A B : Type} (m : M A) (k : A -> M B) : M B :=
  fun w tr =>
    match m w tr with
    | (Returned a, tr') => k a w tr'
    | (Panicked, tr') => (Panicked, tr')
    end.

Definition panic {A : Type} : M A := fun _ tr => (Panicked, tr).

Definition call {R : Type} (c : Call R) : M R :=
  fun w tr => (Returned (respond w R tr c), tr ++ [ev c]).

(** Reading what is outside: the test hook, [forResolve]. *)
Definition world : M World := fun w tr => (Returned w, tr).

(** Reading through a pointer: a nil pointer panics. *)
Definition deref {A : Type} (p : option A) : M A :=
  match p with
  | Some a => ret a
  | None => panic
  end.

Declare Scope go_scope.
Delimit Scope go_scope with go.
Notation "x <- m ;; k" := (bind m (fun x => k))
  (at level 61, m at next level, right associativity) : go_scope.
Notation "' p <- m ;; k" := (bind m (fun x => match x with p => k end))
  (at level 61, p pattern, m at next level, right associativity) : go_scope.
Local Open Scope go_scope.

(* ================================================================== *)
(** * Setting the no-delay option *)
(* ================================================================== *)

(** Modelled from the spec: [boolint] of net/sockopt_posix.go is not among
    the sources; the option value is 1 for true and 0 for false. *)
Definition boolint (b : bool) : Z := if b then 1 else 0.

(** Modelled from the spec: the constant [SCTP_NODELAY] of package net, which
    the two posix variants name, is not declared in the sources; the variants
    request one and the same option, the one of package syscall. *)
Definition SCTP_NODELAY : Z := syscall.SCTP_NODELAY.

(** Modelled from the spec: [errnoErr] of package syscall is not among the
    sources; the error of a system call that returned the error number [e],
    nil for zero. *)
Definition errnoErr (e : Z) : option error :=
  if e =? 0 then None else Some (Errno e).

(** Modelled from the spec: [syscall.SetsockoptInt] is not among the
    sources; the kernel's error number, if not zero, is the error. *)
Definition syscall_SetsockoptInt (s level name value : Z) : M (option error) :=
  e <- call (setsockopt s level name value) ;;
  ret (errnoErr e).

(** Modelled from the spec: [os.NewSyscallError] is not among the sources;
    it decorates an error with the name of the system call, and nil stays
    nil. *)
Definition os_NewSyscallError (name : string) (err : option error)
  : option error :=
  match err with
  | None => None
  | Some e => Some (SyscallError name e)
  end.

(** Modelled from the spec: [wrapSyscallError] of package net is not among
    the sources; it decorates the error numbers of system calls and leaves
    every other error as it is. *)
Definition wrapSyscallError (name : string) (err : option error)
  : option error :=
  match err with
  | Some (Errno _) => os_NewSyscallError name err
  | _ => err
  end.

(** Modelled from the spec: [netFD.incref] is not among the sources; section
    4.3 has the handle held open for the duration of the system call, and a
    handle that is closing refuses to be held. *)
Definition netFD_incref (fd : option netFD) : M (option error) :=
  f <- deref fd ;;
  ok <- call (fdmu_incref f) ;;
  ret (if ok : bool then None else Some errClosing).

(** Modelled from the spec: [netFD.decref] is not among the sources; it lets
    go of the handle that [incref] held. *)
Definition netFD_decref (fd : option netFD) : M unit :=
  f <- deref fd ;;
  call (fdmu_decref f).

(** Modelled from the spec: [poll.FD.SetsockoptInt] (the [fd.pfd] of a
    [netFD]) is not among the sources; it holds the handle open around the
    system call, as section 4.3 requires. *)
Definition pfd_SetsockoptInt (fd : option netFD) (level name arg : Z)
  : M (option error) :=
  err <- netFD_incref fd ;;
  match err with
  | Some e => ret (Some e)
  | None =>
      f <- deref fd ;;
      r <- syscall_SetsockoptInt (sysfd f) level name arg ;;
      _ <- netFD_decref fd ;;
      ret r
  end.

(** sctpsockopt_posix.go, first variant. [runtime.KeepAlive] does nothing
    that can be observed. *)
Definition setSCTPNoDelay_posix (fd : option netFD) (noDelay : bool)
  : M (option error) :=
  err <- pfd_SetsockoptInt fd syscall.IPPROTO_SCTP SCTP_NODELAY
           (boolint noDelay) ;;
  ret (wrapSyscallError "setsockopt" err).

(** sctpsockopt_posix.go, second variant. The deferred [fd.decref()] runs
    once the returned value has been computed. *)
Definition setSCTPNoDelay_posix_sysfd (fd : option netFD) (noDelay : bool)
  : M (option error) :=
  err <- netFD_incref fd ;;
  match err with
  | Some e => ret (Some e)
  | None =>
      f <- deref fd ;;
      r <- syscall_SetsockoptInt (sysfd f) syscall.IPPROTO_SCTP SCTP_NODELAY
             (boolint noDelay) ;;
      _ <- netFD_decref fd ;;
      ret (os_NewSyscallError "setsockopt" r)
  end.

(** sctpsockopt_unix.go: the variant of the platforms of sctpsock_unix.go. *)
Definition setSCTPNoDelay (fd : option netFD) (noDelay : bool)
  : M (option error) :=
  err <- pfd_SetsockoptInt fd syscall.IPPROTO_SCTP syscall.SCTP_NODELAY
           (boolint noDelay) ;;
  ret (wrapSyscallError "setsockopt" err).

(* ================================================================== *)
(** * SCTPConn *)
(* ================================================================== *)

(** Modelled from the spec: [conn.ok] of net/net.go is not among the sources;
    the liveness flag is "derived from handle validity" (section 3), as
    [SCTPListener.ok] is: [c != nil && c.fd != nil], on a pointer to a
    [conn]. *)
Definition conn_ok (c : option SCTPConn) : bool :=
  match c with
  | Some c' => match c_fd c' with Some _ => true | None => false end
  | None => false
  end.

(** [c.ok()] on a [*SCTPConn]. [SCTPConn] embeds [conn] by value, so the call
    is [(&c.conn).ok()]: the address of the embedded [conn] is taken through
    [c] first, which panics on a nil [c], and [ok] then runs on a pointer
    that is not nil. *)
Definition SCTPConn_ok (c : option SCTPConn) : M bool :=
  c' <- deref c ;;
  ret (conn_ok (Some c')).

(** [c.fd] followed through both pointers. *)
Definition conn_fd (c : option SCTPConn) : M netFD :=
  c' <- deref c ;;
  deref (c_fd c').

(** [&OpError{Op: op, Net: fd.net, Source: fd.laddr, Addr: fd.raddr, Err: e}] *)
Definition connOpError (op : string) (fd : netFD) (e : error) : error :=
  OpError op (net fd) (laddr fd) (raddr fd) e.

(** [func (c *SCTPConn) readFrom(r io.Reader) (int64, error)] *)
Definition readFrom (c : option SCTPConn) (r : Reader) : M (Z * option error) :=
  fd <- conn_fd c ;;
  '(n, err, handled) <- call (sendFile fd r) ;;
  if handled : bool then ret (n, err)
  else
    c' <- deref c ;;
    call (genericReadFrom c' r).

(** [func (c *SCTPConn) ReadFrom(r io.Reader) (int64, error)] *)
Definition ReadFrom (c : option SCTPConn) (r : Reader) : M (Z * option error) :=
  alive <- SCTPConn_ok c ;;
  if negb alive then ret (0, Some EINVAL)
  else
    '(n, err) <- readFrom c r ;;
    match err with
    | Some e =>
        if negb (is_EOF e) then
          fd <- conn_fd c ;;
          ret (n, Some (connOpError "read" fd e))
        else ret (n, err)
    | None => ret (n, err)
    end.

(** The shape shared by the operations that call one function on the handle
    and decorate its error. *)
Definition decorated (op : string) (fd : netFD) (err : option error)
  : option error :=
  match err with
  | Some e => Some (connOpError op fd e)
  | None => None
  end.

(** [func (c *SCTPConn) CloseRead() error] *)
Definition CloseRead (c : option SCTPConn) : M (option error) :=
  alive <- SCTPConn_ok c ;;
  if negb alive then ret (Some EINVAL)
  else
    fd <- conn_fd c ;;
    err <- call (netFD_closeRead fd) ;;
    ret (decorated "close" fd err).

(** [func (c *SCTPConn) CloseWrite() error] *)
Definition CloseWrite (c : option SCTPConn) : M (option error) :=
  alive <- SCTPConn_ok c ;;
  if negb alive then ret (Some EINVAL)
  else
    fd <- conn_fd c ;;
    err <- call (netFD_closeWrite fd) ;;
    ret (decorated "close" fd err).

(** [func (c *SCTPConn) SetLinger(sec int) error] *)
Definition SetLinger (c : option SCTPConn) (sec : Z) : M (option error) :=
  alive <- SCTPConn_ok c ;;
  if negb alive then ret (Some EINVAL)
  else
    fd <- conn_fd c ;;
    err <- call (setLinger fd sec) ;;
    ret (decorated "set" fd err).

(** [func (c *SCTPConn) SetKeepAlive(keepalive bool) error] *)
Definition SetKeepAlive (c : option SCTPConn) (keepalive : bool)
  : M (option error) :=
  alive <- SCTPConn_ok c ;;
  if negb alive then ret (Some EINVAL)
  else
    fd <- conn_fd c ;;
    err <- call (setKeepAlive fd keepalive) ;;
    ret (decorated "set" fd err).

(** [func (c *SCTPConn) SetKeepAlivePeriod(d time.Duration) error] *)
Definition SetKeepAlivePeriod (c : option SCTPConn) (d : Duration)
  : M (option error) :=
  alive <- SCTPConn_ok c ;;
  if negb alive then ret (Some EINVAL)
  else
    fd <- conn_fd c ;;
    err <- call (setKeepAlivePeriod fd d) ;;
    ret (decorated "set" fd err).

(** [func (c *SCTPConn) SetNoDelay(noDelay bool) error] *)
Definition SetNoDelay (c : option SCTPConn) (noDelay : bool)
  : M (option error) :=
  alive <- SCTPConn_ok c ;;
  if negb alive then ret (Some EINVAL)
  else
    c' <- deref c ;;
    err <- setSCTPNoDelay (c_fd c') noDelay ;;
    fd <- conn_fd c ;;
    ret (decorated "set" fd err).

(** Modelled from the spec: [conn.Close] of net/net.go, which [SCTPConn]
    inherits through the embedded value like [ok], is not among the sources.
    Section 4.3: it requires the liveness flag like every public operation,
    releases the handle, and decorates the provider's error with operation
    name, network and endpoint addresses. *)
Definition Close (c : option SCTPConn) : M (option error) :=
  alive <- SCTPConn_ok c ;;
  if negb alive then ret (Some EINVAL)
  else
    fd <- conn_fd c ;;
    err <- call (netFD_Close fd) ;;
    ret (decorated "close" fd err).

(** [func newSCTPConn(fd *netFD) *SCTPConn] *)
Definition newSCTPConn (fd : option netFD) : M (option SCTPConn) :=
  let c := mkSCTPConn fd in
  _ <- setSCTPNoDelay (c_fd c) true ;;
  ret (Some c).

(** The public operations of a connection and what they return. *)
Inductive ConnOp : Type :=
| opReadFrom (r : Reader)
| opCloseRead
| opCloseWrite
| opSetLinger (sec : Z)
| opSetKeepAlive (keepalive : bool)
| opSetKeepAlivePeriod (d : Duration)
| opSetNoDelay (noDelay : bool)
| opClose.

Inductive ConnResult : Type :=
| resRead (n : Z) (err : option error)
| resError (err : option error).

Definition runConnOp (op : ConnOp) (c : option SCTPConn) : M ConnResult :=
  match op with
  | opReadFrom r => '(n, err) <- ReadFrom c r ;; ret (resRead n err)
  | opCloseRead => err <- CloseRead c ;; ret (resError err)
  | opCloseWrite => err <- CloseWrite c ;; ret (resError err)
  | opSetLinger sec => err <- SetLinger c sec ;; ret (resError err)
  | opSetKeepAlive b => err <- SetKeepAlive c b ;; ret (resError err)
  | opSetKeepAlivePeriod d => err <- SetKeepAlivePeriod c d ;; ret (resError err)
  | opSetNoDelay b => err <- SetNoDelay c b ;; ret (resError err)
  | opClose => err <- Close c ;; ret (resError err)
  end.

(** The value an operation returns on a dead connection: the invalid-state
    error, and no byte transferred. *)
Definition connInvalidState (op : ConnOp) : ConnResult :=
  match op with
  | opReadFrom _ => resRead 0 (Some EINVAL)
  | _ => resError (Some EINVAL)
  end.

(* ================================================================== *)
(** * Dialing *)
(* ================================================================== *)

(** [switch net { case "sctp", "sctp4", "sctp6": ... }] *)
Definition sctpNetwork (network : string) : bool :=
  String.eqb network "sctp" || String.eqb network "sctp4"
  || String.eqb network "sctp6".

(** [func doDialSCTP(ctx, net, laddr, raddr) ( *SCTPConn, error)] *)
Definition doDialSCTP (ctx : Context) (network : string)
    (la ra : option SCTPAddr) : M (option SCTPConn * option error) :=
  '(fd, err) <- call (internetSocket ctx network la ra
                        syscall.SOCK_STREAM syscall.IPPROTO_SCTP "dial") ;;
  match err with
  | Some e => ret (None, Some e)
  | None => c <- newSCTPConn fd ;; ret (c, None)
  end.

(** [func dialSCTP(ctx, net, laddr, raddr) ( *SCTPConn, error)] *)
Definition dialSCTP (ctx : Context) (network : string)
    (la ra : option SCTPAddr) : M (option SCTPConn * option error) :=
  w <- world ;;
  if testHookDialSCTP w then call (testHookDialSCTP_call ctx network la ra)
  else doDialSCTP ctx network la ra.

(** [func DialSCTP(net string, laddr, raddr *SCTPAddr) ( *SCTPConn, error)] *)
Definition DialSCTP (network : string) (la ra : option SCTPAddr)
  : M (option SCTPConn * option error) :=
  if negb (sctpNetwork network) then
    ret (None, Some (OpError "dial" network (opAddr la) (opAddr ra)
                       (UnknownNetworkError network)))
  else
    match ra with
    | None =>
        ret (None, Some (OpError "dial" network (opAddr la) AddrNil
                           errMissingAddress))
    | Some _ =>
        '(c, err) <- dialSCTP Background network la ra ;;
        match err with
        | Some e =>
            ret (None, Some (OpError "dial" network (opAddr la) (opAddr ra) e))
        | None => ret (c, None)
        end
    end.

(* ================================================================== *)
(** * Resolving *)
(* ================================================================== *)

(** The type assertion [x.( *SCTPAddr)]: panics on any other value. *)
Definition assertSCTPAddr (x : Addr) : M (option SCTPAddr) :=
  match x with
  | AddrSCTP a => ret (Some a)
  | _ => panic
  end.

(** The statements of ResolveSCTPAddr after its [switch], on the network
    that the switch leaves. *)
Definition resolveOn (network address : string)
  : M (option SCTPAddr * option error) :=
  '(addrs, err) <- call (internetAddrList Background network address) ;;
  match err with
  | Some e => ret (None, Some e)
  | None =>
      w <- world ;;
      a <- assertSCTPAddr (forResolve w addrs network address) ;;
      ret (a, None)
  end.

(** [func ResolveSCTPAddr(network, address string) ( *SCTPAddr, error)] *)
Definition ResolveSCTPAddr (network address : string)
  : M (option SCTPAddr * option error) :=
  if sctpNetwork network then resolveOn network address
  else if String.eqb network "" then resolveOn "sctp" address
  else ret (None, Some (UnknownNetworkError network)).

(* ================================================================== *)
(** * SCTPListener *)
(* ================================================================== *)

(** [func (ln *SCTPListener) ok() bool] *)
Definition ok (ln : option SCTPListener) : bool :=
  match ln with
  | Some l => match l_fd l with Some _ => true | None => false end
  | None => false
  end.

(** [ln.fd] followed through both pointers. *)
Definition listener_fd (ln : option SCTPListener) : M netFD :=
  l <- deref ln ;;
  deref (l_fd l).

(** [&OpError{Op: op, Net: l.fd.net, Source: nil, Addr: l.fd.laddr, Err: e}] *)
Definition listenerError (op : string) (fd : netFD) (err : option error)
  : option error :=
  match err with
  | Some e => Some (OpError op (net fd) AddrNil (laddr fd) e)
  | None => None
  end.

(** [func (ln *SCTPListener) accept() ( *SCTPConn, error)] *)
Definition accept (ln : option SCTPListener) : M (option SCTPConn * option error) :=
  fd <- listener_fd ln ;;
  '(nfd, err) <- call (netFD_accept fd) ;;
  match err with
  | Some e => ret (None, Some e)
  | None => c <- newSCTPConn nfd ;; ret (c, None)
  end.

(** [func (ln *SCTPListener) close() error] *)
Definition close (ln : option SCTPListener) : M (option error) :=
  fd <- listener_fd ln ;;
  call (netFD_Close fd).

(** [func (ln *SCTPListener) file() ( *os.File, error)] *)
Definition file_ (ln : option SCTPListener) : M (option File * option error) :=
  fd <- listener_fd ln ;;
  '(f, err) <- call (netFD_dup fd) ;;
  match err with
  | Some e => ret (None, Some e)
  | None => ret (f, None)
  end.

(** [func (l *SCTPListener) AcceptSCTP() ( *SCTPConn, error)] *)
Definition AcceptSCTP (l : option SCTPListener)
  : M (option SCTPConn * option error) :=
  if negb (ok l) then ret (None, Some EINVAL)
  else
    '(c, err) <- accept l ;;
    match err with
    | Some _ => fd <- listener_fd l ;; ret (None, listenerError "accept" fd err)
    | None => ret (c, None)
    end.

(** [func (l *SCTPListener) Accept() (Conn, error)]: the connection as a value
    of the interface [Conn]. *)
Definition Accept (l : option SCTPListener)
  : M (option SCTPConn * option error) :=
  if negb (ok l) then ret (None, Some EINVAL)
  else
    '(c, err) <- accept l ;;
    match err with
    | Some _ => fd <- listener_fd l ;; ret (None, listenerError "accept" fd err)
    | None => ret (c, None)
    end.

(** [func (l *SCTPListener) Close() error] *)
Definition Listener_Close (l : option SCTPListener) : M (option error) :=
  if negb (ok l) then ret (Some EINVAL)
  else
    err <- close l ;;
    fd <- listener_fd l ;;
    ret (listenerError "close" fd err).

(** [func (l *SCTPListener) Addr() Addr { return l.fd.laddr }] *)
Definition Addr_ (l : option SCTPListener) : M Addr :=
  fd <- listener_fd l ;;
  ret (laddr fd).

(** [func (l *SCTPListener) SetDeadline(t time.Time) error] *)
Definition SetDeadline (l : option SCTPListener) (t : Time) : M (option error) :=
  if negb (ok l) then ret (Some EINVAL)
  else
    fd <- listener_fd l ;;
    err <- call (pfd_SetDeadline fd t) ;;
    ret (listenerError "set" fd err).

(** [func (l *SCTPListener) File() (f *os.File, err error)] *)
Definition File_ (l : option SCTPListener) : M (option File * option error) :=
  if negb (ok l) then ret (None, Some EINVAL)
  else
    '(f, err) <- file_ l ;;
    match err with
    | Some _ => fd <- listener_fd l ;; ret (None, listenerError "file" fd err)
    | None => ret (f, err)
    end.

(** The public operations of a listener and what they return. *)
Inductive ListenerOp : Type :=
| opAcceptSCTP
| opAccept
| opListenerClose
| opAddr_
| opSetDeadline (t : Time)
| opFile.

Inductive ListenerResult : Type :=
| resConn (c : option SCTPConn) (err : option error)
| resErr (err : option error)
| resAddr (a : Addr)
| resFile (f : option File) (err : option error).

Definition runListenerOp (op : ListenerOp) (l : option SCTPListener)
  : M ListenerResult :=
  match op with
  | opAcceptSCTP => '(c, err) <- AcceptSCTP l ;; ret (resConn c err)
  | opAccept => '(c, err) <- Accept l ;; ret (resConn c err)
  | opListenerClose => err <- Listener_Close l ;; ret (resErr err)
  | opAddr_ => a <- Addr_ l ;; ret (resAddr a)
  | opSetDeadline t => err <- SetDeadline l t ;; ret (resErr err)
  | opFile => '(f, err) <- File_ l ;; ret (resFile f err)
  end.

(** The error an operation reported, when it returned and has an error
    result at all. *)
Definition reportedError (o : outcome ListenerResult) : option error :=
  match o with
  | Returned (resConn _ err) => err
  | Returned (resErr err) => err
  | Returned (resFile _ err) => err
  | Returned (resAddr _) => None
  | Panicked => None
  end.

(** Failing fast with the invalid-state error: the operation returns
    [EINVAL] and the trace of calls is the one it started from. *)
Definition failsInvalidState (op : ListenerOp) (l : option SCTPListener)
    (w : World) (tr : Trace) : Prop :=
  reportedError (fst (runListenerOp op l w tr)) = Some EINVAL /\
  snd (runListenerOp op l w tr) = tr.

(* ================================================================== *)
(** * Listening *)
(* ================================================================== *)

(** [func listenSCTP(ctx, network, laddr) ( *SCTPListener, error)] *)
Definition listenSCTP (ctx : Context) (network : string)
    (la : option SCTPAddr) : M (option SCTPListener * option error) :=
  '(fd, err) <- call (internetSocket ctx network la None
                        syscall.SOCK_STREAM syscall.IPPROTO_SCTP "listen") ;;
  match err with
  | Some e => ret (None, Some e)
  | None => ret (Some (mkSCTPListener fd), None)
  end.

(** [func ListenSCTP(net string, laddr *SCTPAddr) ( *SCTPListener, error)] *)
Definition ListenSCTP (network : string) (la : option SCTPAddr)
  : M (option SCTPListener * option error) :=
  if negb (sctpNetwork network) then
    ret (None, Some (OpError "listen" network AddrNil (opAddr la)
                       (UnknownNetworkError network)))
  else
    let la := match la with
              | None => Some SCTPAddr_zero
              | Some _ => la
              end in
    '(ln, err) <- listenSCTP Background network la ;;
    match err with
    | Some e =>
        ret (None, Some (OpError "listen" network AddrNil (opAddr la) e))
    | None => ret (ln, None)
    end.

(* ================================================================== *)
(** * Two concrete providers *)
(* ================================================================== *)

Definition addr_lo_9000 : SCTPAddr := mkSCTPAddr ip_127_0_0_1 9000 "".
Definition addr_lo_9001 : SCTPAddr := mkSCTPAddr ip_127_0_0_1 9001 "".

(** A listening handle and a connected one. *)
Definition fd_listen : netFD := mkNetFD 3 "sctp" (AddrSCTP addr_lo_9000) AddrNil.
Definition fd_conn : netFD :=
  mkNetFD 4 "sctp" (AddrSCTP addr_lo_9001) (AddrSCTP addr_lo_9000).

(** A provider that answers every call the same way whatever came before:
    with success when [good], and otherwise with EADDRINUSE (98) from the
    socket layer, EBADF (9) from the kernel and a refusal to hold the
    handle. *)
Definition answers (good : bool) (R : Type) (_ : Trace) (c : Call R) : R :=
  let failure : option error := if good then None else Some (Errno 98) in
  match c in Call R return R with
  | internetSocket _ _ _ _ _ _ _ =>
      (if good then Some fd_conn else None, failure)
  | netFD_accept _ => (if good then Some fd_conn else None, failure)
  | netFD_Close _ => failure
  | netFD_closeRead _ => failure
  | netFD_closeWrite _ => failure
  | netFD_dup _ => (if good then Some (file 5) else None, failure)
  | pfd_SetDeadline _ _ => failure
  | fdmu_incref _ => good
  | fdmu_decref _ => tt
  | setsockopt _ _ _ _ => if good then 0 else 9
  | setLinger _ _ => failure
  | setKeepAlive _ _ => failure
  | setKeepAlivePeriod _ _ => failure
  | sendFile _ _ => (0, None, false)
  | genericReadFrom _ _ => (if good then 7 else 0, failure)
  | internetAddrList _ _ _ =>
      (if good then [AddrSCTP addr_lo_9000] else [], failure)
  | testHookDialSCTP_call _ _ _ _ => (None, failure)
  end.

Definition first_or_nil (l : addrList) (_ _ : string) : Addr := hd AddrNil l.

Definition world_ok : World := mkWorld (answers true) false first_or_nil.
Definition world_failing : World := mkWorld (answers false) false first_or_nil.

(** A provider whose handles can be held open but whose kernel refuses the
    option with ENOPROTOOPT (92). *)
Definition answers_noprotoopt (R : Type) (tr : Trace) (c : Call R) : R :=
  match c in Call R return R with
  | setsockopt _ _ _ _ => 92
  | c' => answers true _ tr c'
  end.

Definition world_noprotoopt : World :=
  mkWorld answers_noprotoopt false first_or_nil.

(** Whether an event is the request of the no-delay option with value [v]
    on socket [s]. *)
Definition isNoDelayRequest (s v : Z) (e : Event) : bool :=
  match e with
  | existT _ _ (setsockopt s' level name value) =>
      Z.eqb s' s && Z.eqb level syscall.IPPROTO_SCTP
      && Z.eqb name syscall.SCTP_NODELAY && Z.eqb value v
  | _ => false
  end.

Definition countNoDelayRequests (s v : Z) (tr : Trace) : nat :=
  List.length (filter (isNoDelayRequest s v) tr).

(* ================================================================== *)
(** * The statements of the design document *)
(* ================================================================== *)

(** Section 4.1 as worded: a wildcard is a nil address, an address whose IP
    is empty, or one whose IP is the unspecified address. *)
Definition wildcardByDocument (a : option SCTPAddr) : Prop :=
  a = None \/
  exists s, a = Some s /\ (emptyIP (sIP s) \/ unspecifiedIP (sIP s)).

(** An address whose IP is an allocated slice of length zero. *)
Definition addr_empty_slice : option SCTPAddr := Some (mkSCTPAddr (Some []) 0 "").

(** A call that "fails with the MissingAddress error": no connection, and an
    error that carries [errMissingAddress]. *)
Definition failsWithMissingAddress
    (o : outcome (option SCTPConn * option error)) : Prop :=
  exists op network source addr,
    o = Returned (None, Some (OpError op network source addr errMissingAddress)).

(** The networks on which the resolver is consulted (section 4.1): the
    three tokens and the empty string. *)
Definition resolvable (network : string) : bool :=
  existsb (String.eqb network) ["sctp"; "sctp4"; "sctp6"; ""].

(** The one [setOption] of section 9 on an open handle [f]: the handle is
    held, the option (IPPROTO_SCTP, SCTP_NODELAY, boolint b) is requested
    from the kernel, the handle is let go, and the kernel's error is
    decorated with "setsockopt". A handle that is closing refuses to be held:
    its error comes back as it is and nothing is requested. *)
Definition setOption (w : World) (f : netFD) (b : bool) (tr : Trace)
  : outcome (option error) * Trace :=
  let request :=
    setsockopt (sysfd f) syscall.IPPROTO_SCTP syscall.SCTP_NODELAY (boolint b) in
  if respond w bool tr (fdmu_incref f) then
    let e := respond w Z (tr ++ [ev (fdmu_incref f)]) request in
    (Returned
       (if e =? 0 then None else Some (SyscallError "setsockopt" (Errno e))),
     tr ++ [ev (fdmu_incref f); ev request; ev (fdmu_decref f)])
  else (Returned (Some errClosing), tr ++ [ev (fdmu_incref f)]).

(** The claim C9 for one variant at one input: the option is requested and
    what comes back is nil or an error decorated with "setsockopt". *)
Definition requestsAndDecorates
    (variant : option netFD -> bool -> M (option error))
    (f : netFD) (b : bool) (w : World) (tr : Trace) : Prop :=
  existsb (isNoDelayRequest (sysfd f) (boolint b))
          (snd (variant (Some f) b w tr)) = true /\
  (fst (variant (Some f) b w tr) = Returned None \/
   exists e, fst (variant (Some f) b w tr)
             = Returned (Some (SyscallError "setsockopt" e))).

(** What ReadFrom surfaces of the error of the transfer (section 4.3): no
    error stays no error, end of input stays the bare [io.EOF], and any other
    error is decorated with operation, network and endpoint addresses. *)
Definition surfaced (fd : netFD) (err : option error) : option error :=
  match err with
  | None => None
  | Some io_EOF => Some io_EOF
  | Some e => Some (OpError "read" (net fd) (laddr fd) (raddr fd) e)
  end.

(** The transfer behind ReadFrom on a live connection (section 4.3): the
    fast path when it handles the transfer, the generic copy otherwise. The
    bytes transferred, the error of the transfer, and the calls made. *)
Definition transfer (w : World) (fd : netFD) (r : Reader) (tr : Trace)
  : Z * option error * Trace :=
  match respond w _ tr (sendFile fd r) with
  | (n, err, true) => (n, err, tr ++ [ev (sendFile fd r)])
  | (_, _, false) =>
      match respond w _ (tr ++ [ev (sendFile fd r)])
              (genericReadFrom (mkSCTPConn (Some fd)) r) with
      | (n, err) =>
          (n, err,
           tr ++ [ev (sendFile fd r);
                  ev (genericReadFrom (mkSCTPConn (Some fd)) r)])
      end
  end.

(** What a dial or an accept that obtained the handle [fd] returns: the
    connection on [fd], no error, and the calls of one run of
    setSCTPNoDelay(fd, true). *)
Definition newSCTPConn_result (fd : netFD) (w : World) (tr : Trace)
  : outcome (option SCTPConn * option error) * Trace :=
  (Returned (Some (mkSCTPConn (Some fd)), None),
   snd (setSCTPNoDelay (Some fd) true w tr)).

(** The call by which ListenSCTP without a local address reaches the
    provider: listen on the zero address, no remote address. *)
Definition listenCall (network : string) : Call (option netFD * option error) :=
  internetSocket Background network (Some SCTPAddr_zero) None
    syscall.SOCK_STREAM syscall.IPPROTO_SCTP "listen".

(* ================================================================== *)
(** * Socket addresses of the kernel *)
(* ================================================================== *)

(** An array [[n]byte]: its bytes, [n] of them. *)
Definition byteArray (n : nat) : Type := {l : list byte | List.length l = n}.

(** [a[0:]]: the slice of all the bytes of an array. *)
Definition arraySlice {n : nat} (a : byteArray n) : list byte := proj1_sig a.

(** The dynamic types of [syscall.Sockaddr] (non-nil pointers). *)
Inductive Sockaddr : Type :=
| SockaddrInet4 (port : Z) (addr : byteArray 4)
| SockaddrInet6 (port : Z) (zoneId : Z) (addr : byteArray 16)
| SockaddrUnix (name : string).

Section ZoneCache.

(** [zoneCache.name] of net/interface.go: the name of the zone of an index. *)
Variable zoneCache_name : Z -> string.

(** [func sockaddrToSCTP(sa syscall.Sockaddr) Addr] *)
Definition sockaddrToSCTP (sa : option Sockaddr) : Addr :=
  match sa with
  | Some (SockaddrInet4 port addr) =>
      AddrSCTP (mkSCTPAddr (Some (arraySlice addr)) port "")
  | Some (SockaddrInet6 port zoneId addr) =>
      AddrSCTP (mkSCTPAddr (Some (arraySlice addr)) port
                  (zoneCache_name zoneId))
  | _ => AddrNil
  end.

End ZoneCache.

(** An interface value as the [*SCTPAddr] it holds, if it holds one. *)
Definition asSCTPAddr (x : Addr) : option SCTPAddr :=
  match x with
  | AddrSCTP a => Some a
  | _ => None
  end.

(* ================================================================== *)
(** * Reading the results of the public operations *)
(* ================================================================== *)

(** The [Op] field that each operation of a connection gives its errors. *)
Definition connOpName (op : ConnOp) : string :=
  match op with
  | opReadFrom _ => "read"
  | opCloseRead | opCloseWrite | opClose => "close"
  | opSetLinger _ | opSetKeepAlive _ | opSetKeepAlivePeriod _
  | opSetNoDelay _ => "set"
  end.

Definition connError (r : ConnResult) : option error :=
  match r with
  | resRead _ err => err
  | resError err => err
  end.

(** The errors an operation of a connection can hand to its caller. *)
Definition connErrorShape (op : ConnOp) (c : option SCTPConn)
    (err : option error) : Prop :=
  match err with
  | None => True
  | Some e =>
      (conn_ok c = false /\ e = EINVAL) \/
      ((exists r, op = opReadFrom r) /\ e = io_EOF) \/
      (exists fd inner,
          c = Some (mkSCTPConn (Some fd)) /\
          e = OpError (connOpName op) (net fd) (laddr fd) (raddr fd) inner)
  end.

(** Whether an event releases a handle. *)
Definition isHandleClose (e : Event) : bool :=
  match e with
  | existT _ _ (netFD_Close _) => true
  | _ => false
  end.

(** Whether an event is a system call that sets a socket option. *)
Definition isSetsockopt (e : Event) : bool :=
  match e with
  | existT _ _ (setsockopt _ _ _ _) => true
  | _ => false
  end.

(** Whether an event opens a socket. *)
Definition isInternetSocket (e : Event) : bool :=
  match e with
  | existT _ _ (internetSocket _ _ _ _ _ _ _) => true
  | _ => false
  end.

(** The [Op] field that each operation of a listener gives its errors. *)
Definition listenerOpName (op : ListenerOp) : string :=
  match op with
  | opAcceptSCTP | opAccept => "accept"
  | opListenerClose => "close"
  | opSetDeadline _ => "set"
  | opFile => "file"
  | opAddr_ => ""
  end.

(** Whether a result carries a connection or a file. *)
Definition hasValue (r : ListenerResult) : bool :=
  match r with
  | resConn (Some _) _ => true
  | resFile (Some _) _ => true
  | _ => false
  end.

(** The results an operation of a listener can hand to its caller: no error,
    or no value and either the invalid-state error of a dead listener or the
    provider's error decorated with the operation, the network and the local
    address of the handle, the source being nil. *)
Definition listenerResultShape (op : ListenerOp) (l : option SCTPListener)
    (r : ListenerResult) : Prop :=
  match reportedError (Returned r) with
  | None => True
  | Some e =>
      hasValue r = false /\
      ((ok l = false /\ e = EINVAL) \/
       (exists fd inner,
           l = Some (mkSCTPListener (Some fd)) /\
           e = OpError (listenerOpName op) (net fd) AddrNil (laddr fd) inner))
  end.

(** The call by which a dial reaches the provider. *)
Definition dialCall (network : string) (la ra : option SCTPAddr)
  : Call (option netFD * option error) :=
  internetSocket Background network la ra
    syscall.SOCK_STREAM syscall.IPPROTO_SCTP "dial".

(** The call by which ListenSCTP reaches the provider: a nil local address
    has become the zero address, and there is no remote address. *)
Definition listenCallOn (network : string) (la : option SCTPAddr)
  : Call (option netFD * option error) :=
  internetSocket Background network
    (match la with None => Some SCTPAddr_zero | Some _ => la end) None
    syscall.SOCK_STREAM syscall.IPPROTO_SCTP "listen".

(** A provider like [world_ok] with the test hook set. *)
Definition world_hooked : World := mkWorld (answers true) true first_or_nil.

(* ================================================================== *)
(** * Facts on byte sequences *)
(* ================================================================== *)

Lemma bytesEqual_eq (x y : list byte) : bytesEqual x y = true <-> x = y.
Proof.
  revert y; induction x as [|a x IH]; intros [|b y]; simpl;
    try (split; [discriminate | discriminate]); try tauto.
  rewrite andb_true_iff, IH. split.
  - intros [Hab ->]. apply byte_dec_bl in Hab. now subst.
  - intros E. injection E as -> ->. split; [now apply byte_dec_lb | reflexivity].
Qed.

(** A list of a known length is a list of that many elements. *)
Ltac explode_list l H :=
  repeat (destruct l as [|? l]; simpl in H; try discriminate H; try lia).

(* ------------------------------------------------------------------ *)
(** ** [To4] detects exactly the 4-byte and the IPv4-mapped addresses *)
(* ------------------------------------------------------------------ *)

Lemma To4_IPv4 (a b c d : byte) : To4 (IPv4 a b c d) = Some [a; b; c; d].
Proof. reflexivity. Qed.

Lemma To4_long (ip : IP) :
  (4 < len ip)%nat -> (To4 ip <> None <-> IPv4Mapped ip).
Proof.
  intros Hlen. split.
  - intros HT. unfold To4 in HT.
    destruct (Nat.eqb_spec (len ip) IPv4len) as [E|_];
      [unfold IPv4len in E; lia|].
    destruct (Nat.eqb_spec (len ip) IPv6len) as [E|_];
      [|now simpl in HT].
    destruct ip as [l|]; [|discriminate E].
    unfold len, IPv6len in E. simpl bytes in HT.
    explode_list l E. clear E.
    unfold slice in HT. simpl in HT.
    repeat match type of HT with
           | context [Byte.eqb ?x ?y] =>
               destruct (Byte.eqb x y) eqn:?; simpl in HT
           end; try congruence.
    repeat match goal with
           | E : Byte.eqb _ _ = true |- _ => apply byte_dec_bl in E; subst
           end.
    now eexists _, _, _, _.
  - intros (a & b & c & d & ->). now rewrite To4_IPv4.
Qed.

(* ------------------------------------------------------------------ *)
(** ** [IsUnspecified] holds exactly of 0.0.0.0 and of "::" *)
(* ------------------------------------------------------------------ *)

Lemma Equal_IPv4zero (ip : IP) :
  Equal ip IPv4zero = true <->
  ip = Some [x00; x00; x00; x00] \/ ip = IPv4zero.
Proof.
  destruct ip as [l|].
  2:{ split; [discriminate | intros [?|?]; discriminate]. }
  unfold Equal. simpl len. simpl bytes.
  destruct (Nat.eqb_spec (List.length l) 16) as [E16|N16].
  - rewrite bytesEqual_eq. split.
    + intros ->. now right.
    + intros [E|E]; [injection E as ->; discriminate E16 | now injection E].
  - destruct (Nat.eqb_spec (List.length l) IPv4len) as [E4|N4]; simpl.
    + rewrite bytesEqual_eq. split.
      * intros ->. now left.
      * intros [E|E]; injection E as ->; [reflexivity | now elim N16].
    + destruct (Nat.eqb_spec (List.length l) IPv6len) as [E|_];
        [now elim N16|].
      split; [discriminate|].
      intros [E|E]; injection E as ->; [now elim N4 | now elim N16].
Qed.

Lemma Equal_IPv6unspecified (ip : IP) :
  Equal ip IPv6unspecified = true <-> ip = IPv6unspecified.
Proof.
  destruct ip as [l|].
  2:{ split; discriminate. }
  unfold Equal. simpl len. simpl bytes.
  destruct (Nat.eqb_spec (List.length l) 16) as [E16|N16].
  - rewrite bytesEqual_eq. split; [now intros -> | now intros [= ->]].
  - destruct (Nat.eqb_spec (List.length l) IPv4len) as [E4|N4]; simpl.
    + split; [discriminate | intros [= ->]; now elim N16].
    + destruct (Nat.eqb_spec (List.length l) IPv6len) as [E|_];
        [now elim N16|].
      split; [discriminate | intros [= ->]; now elim N16].
Qed.

Lemma IsUnspecified_spec (ip : IP) :
  IsUnspecified ip = true <-> unspecifiedIP ip.
Proof.
  unfold IsUnspecified, unspecifiedIP.
  rewrite orb_true_iff, Equal_IPv4zero, Equal_IPv6unspecified. tauto.
Qed.

(* ================================================================== *)
(** * Address family and wildcard detection *)
(* ================================================================== *)

(** C2. [family()] is the v4 family (AF_INET) when the address is nil, when
    its IP has at most four bytes, or when its IP is an IPv4-mapped IPv6
    address, and the v6 family (AF_INET6) in every other case. In particular
    it is v4 for 127.0.0.1 (as four bytes and in its 16-byte form, which is
    also ::ffff:127.0.0.1) and v6 for ::1, whatever the port and the zone. *)
Theorem family_spec :
  (forall a : option SCTPAddr,
      (v4Address a /\ family a = syscall.AF_INET) \/
      (~ v4Address a /\ family a = syscall.AF_INET6)) /\
  (forall p z, family (Some (mkSCTPAddr ip_127_0_0_1 p z)) = syscall.AF_INET) /\
  (forall p z,
      family (Some (mkSCTPAddr ip_mapped_127_0_0_1 p z)) = syscall.AF_INET) /\
  (forall p z, family (Some (mkSCTPAddr ip_loopback6 p z)) = syscall.AF_INET6).
Proof.
  split; [|repeat split; reflexivity].
  intros [s|]; [|left; split; [now left | reflexivity]].
  unfold family.
  destruct (Nat.leb_spec (len (sIP s)) IPv4len) as [Hle|Hgt].
  - left. split; [|reflexivity]. right. exists s. split; [reflexivity | now left].
  - pose proof (To4_long (sIP s) Hgt) as HT.
    destruct (To4 (sIP s)) as [v|] eqn:E.
    + left. split; [|reflexivity]. right. exists s. split; [reflexivity|].
      right. apply HT. discriminate.
    + right. split; [|reflexivity].
      intros [H|(s' & Es & [H|H])]; [discriminate H | |];
        injection Es as <-.
      * unfold IPv4len in Hgt. lia.
      * apply HT in H. now apply H.
Qed.

(** C7, counterexample. An IP that is empty without being the nil slice is
    not a wildcard for [isWildcard], although it is empty. *)
Lemma isWildcard_empty_slice :
  wildcardByDocument addr_empty_slice /\
  isWildcard addr_empty_slice = false /\
  ~ (isWildcard addr_empty_slice = true <-> wildcardByDocument addr_empty_slice).
Proof.
  assert (W : wildcardByDocument addr_empty_slice).
  { right. eexists. split; [reflexivity|]. now left. }
  split; [exact W|]. split; [reflexivity|].
  intros [_ H]. apply H in W. discriminate W.
Qed.

(** C7, as the code has it. [isWildcard()] is true if and only if the address
    is nil, or its IP is the nil slice, or its IP is the unspecified address
    (0.0.0.0 as four bytes or in IPv4-mapped form, or "::"). *)
Theorem isWildcard_spec (a : option SCTPAddr) :
  isWildcard a = true <->
  (a = None \/
   exists s, a = Some s /\ (sIP s = None \/ unspecifiedIP (sIP s))).
Proof.
  destruct a as [s|]; simpl.
  2:{ split; [now left | reflexivity]. }
  destruct (sIP s) as [l|] eqn:E.
  - rewrite IsUnspecified_spec. split.
    + intros H. right. exists s. rewrite E. split; [reflexivity | now right].
    + intros [H|(s' & Es & [H|H])]; [discriminate H | |];
        injection Es as <-; rewrite E in H; [discriminate H | exact H].
  - split; [|reflexivity]. intros _. right. exists s. split; [reflexivity|].
    left. exact E.
Qed.

(* ================================================================== *)
(** * Running computations *)
(* ================================================================== *)

Lemma bind_ret {A B : Type} (a : A) (k : A -> M B) (w : World) (tr : Trace) :
  bind (ret a) k w tr = k a w tr.
Proof. reflexivity. Qed.

Lemma bind_call {R B : Type} (c : Call R) (k : R -> M B) (w : World) (tr : Trace) :
  bind (call c) k w tr = k (respond w R tr c) w (tr ++ [ev c]).
Proof. reflexivity. Qed.

Lemma bind_panic {A B : Type} (k : A -> M B) (w : World) (tr : Trace) :
  bind panic k w tr = (Panicked, tr).
Proof. reflexivity. Qed.

Lemma bind_bind {A B C : Type} (m : M A) (k : A -> M B) (h : B -> M C)
    (w : World) (tr : Trace) :
  bind (bind m k) h w tr = bind m (fun a => bind (k a) h) w tr.
Proof. unfold bind. destruct (m w tr) as [[a|] tr']; reflexivity. Qed.

Lemma conn_ok_false (c : option SCTPConn) :
  conn_ok c = false <-> c = None \/ c = Some (mkSCTPConn None).
Proof.
  destruct c as [[[fd|]]|]; simpl; split; try tauto; try discriminate;
    intros [H|H]; discriminate H.
Qed.

Lemma ok_false (l : option SCTPListener) :
  ok l = false <-> l = None \/ l = Some (mkSCTPListener None).
Proof.
  destruct l as [[[fd|]]|]; simpl; split; try tauto; try discriminate;
    intros [H|H]; discriminate H.
Qed.

Lemma sctpNetwork_spec (network : string) :
  sctpNetwork network = true <-> In network ["sctp"; "sctp4"; "sctp6"].
Proof.
  unfold sctpNetwork. rewrite !orb_true_iff, !String.eqb_eq. simpl.
  intuition congruence.
Qed.

(* ================================================================== *)
(** * Dialing without a remote address *)
(* ================================================================== *)

(** C1, counterexample. With a network that is not an SCTP one, a dial
    without remote address is refused for its network, not for the missing
    address: so with "tcp", and so with the empty string, which only
    ResolveSCTPAddr takes for "sctp". *)
Lemma DialSCTP_tcp_nil_raddr :
  DialSCTP "tcp" None None world_ok [] =
    (Returned (None, Some (OpError "dial" "tcp" AddrNil AddrNil
                             (UnknownNetworkError "tcp"))), []) /\
  ~ failsWithMissingAddress (fst (DialSCTP "tcp" None None world_ok [])) /\
  ~ failsWithMissingAddress (fst (DialSCTP "" None None world_ok [])).
Proof.
  split; [reflexivity|].
  split; intros (op & network & source & addr & H); simpl in H; discriminate H.
Qed.

(** C1, as the code has it. A call of DialSCTP with a nil remote address
    never reaches the socket provider: the trace of calls is left as it was.
    On the networks "sctp", "sctp4" and "sctp6" it fails with the
    MissingAddress error; on every other network string it fails with
    UnknownNetwork, the network being checked first. *)
Theorem DialSCTP_nil_raddr (w : World) (network : string)
    (la : option SCTPAddr) (tr : Trace) :
  DialSCTP network la None w tr =
    (Returned
       (None,
        Some (OpError "dial" network (opAddr la) AddrNil
                (if sctpNetwork network then errMissingAddress
                 else UnknownNetworkError network))),
     tr).
Proof.
  unfold DialSCTP. destruct (sctpNetwork network); reflexivity.
Qed.

(* ================================================================== *)
(** * Liveness of connections and listeners *)
(* ================================================================== *)

(** C3, counterexample. On a nil connection an operation does not return
    EINVAL: [c.ok()] is reached through the embedded [conn] of [c], and
    taking it through a nil [c] panics. *)
Lemma conn_nil_panics :
  runConnOp opCloseRead None world_ok [] = (Panicked, []) /\
  runConnOp opCloseRead None world_ok []
  <> (Returned (connInvalidState opCloseRead), []).
Proof. split; [reflexivity | discriminate]. Qed.

(** C3, as the code has it. On a connection that is not nil and whose handle
    is nil, each of ReadFrom, CloseRead, CloseWrite, SetLinger, SetKeepAlive,
    SetKeepAlivePeriod, SetNoDelay and Close returns the invalid-state error
    EINVAL (ReadFrom with zero bytes) and calls nothing: the trace is left as
    it was. On a nil connection each of them panics in [c.ok()], and calls
    nothing either. *)
Theorem conn_dead_EINVAL (op : ConnOp) (w : World) (tr : Trace) :
  runConnOp op (Some (mkSCTPConn None)) w tr
  = (Returned (connInvalidState op), tr) /\
  runConnOp op None w tr = (Panicked, tr).
Proof.
  split; destruct op; reflexivity.
Qed.

(** C4, counterexample. [Addr()] on a nil listener does not fail with the
    invalid-state error: it has no error to report and goes through the nil
    pointer. *)
Lemma Addr_nil_listener :
  ~ failsInvalidState opAddr_ None world_ok [] /\
  Addr_ None world_ok [] = (Panicked, []).
Proof.
  split; [|reflexivity]. intros [H _]. discriminate H.
Qed.

(** C4, as the code has it. On a listener whose liveness flag is false (a nil
    listener or a nil handle), each of AcceptSCTP, Accept, Close, SetDeadline
    and File fails with the invalid-state error EINVAL and calls nothing.
    [Addr()] makes no liveness check and has no error result: it reads
    [l.fd.laddr], which on such a listener is a nil dereference. *)
Theorem listener_dead (l : option SCTPListener) (w : World) (tr : Trace) :
  ok l = false ->
  (forall op, op <> opAddr_ -> failsInvalidState op l w tr) /\
  Addr_ l w tr = (Panicked, tr).
Proof.
  intros H. split.
  - intros op Hop. unfold failsInvalidState.
    destruct op; try (now elim Hop);
      unfold runListenerOp, AcceptSCTP, Accept, Listener_Close, SetDeadline,
        File_; rewrite H; split; reflexivity.
  - apply ok_false in H. destruct H as [-> | ->]; reflexivity.
Qed.

Lemma listener_dead_witness :
  ok (Some (mkSCTPListener None)) = false /\
  failsInvalidState opFile (Some (mkSCTPListener None)) world_ok [] /\
  Addr_ (Some (mkSCTPListener None)) world_ok [] = (Panicked, []).
Proof.
  split; [reflexivity|].
  destruct (listener_dead (Some (mkSCTPListener None)) world_ok [] eq_refl)
    as [Hops HAddr].
  split; [apply Hops; discriminate | exact HAddr].
Defined.

(** On a live listener [Addr()] is the local address of the handle, and
    nothing is called. *)
Lemma Addr_live (fd : netFD) (w : World) (tr : Trace) :
  Addr_ (Some (mkSCTPListener (Some fd))) w tr = (Returned (laddr fd), tr).
Proof. reflexivity. Qed.

(* ================================================================== *)
(** * The variants of setSCTPNoDelay *)
(* ================================================================== *)

Lemma decorate_errno (e : Z) :
  wrapSyscallError "setsockopt" (errnoErr e) =
  os_NewSyscallError "setsockopt" (errnoErr e).
Proof. unfold errnoErr. destruct (e =? 0); reflexivity. Qed.

Lemma decorated_errno (e : Z) :
  os_NewSyscallError "setsockopt" (errnoErr e) =
  if e =? 0 then None else Some (SyscallError "setsockopt" (Errno e)).
Proof. unfold errnoErr. destruct (e =? 0); reflexivity. Qed.

(** The variant of sctpsockopt_unix.go on an open or closing handle. *)
Lemma setSCTPNoDelay_run (w : World) (f : netFD) (b : bool) (tr : Trace) :
  setSCTPNoDelay (Some f) b w tr = setOption w f b tr.
Proof.
  unfold setSCTPNoDelay, pfd_SetsockoptInt, netFD_incref, netFD_decref,
    syscall_SetsockoptInt, setOption, bind, call, deref, ret.
  destruct (respond w bool tr (fdmu_incref f)); [|reflexivity].
  rewrite decorate_errno, decorated_errno, <- !app_assoc. reflexivity.
Qed.

(** C9, counterexample. On a handle that is closing, the variant that takes
    the reference itself requests nothing from the provider and returns the
    handle's error without decoration. *)
Lemma setSCTPNoDelay_closing_handle :
  setSCTPNoDelay_posix_sysfd (Some fd_conn) true world_failing [] =
    (Returned (Some errClosing), [ev (fdmu_incref fd_conn)]) /\
  ~ requestsAndDecorates setSCTPNoDelay_posix_sysfd fd_conn true
      world_failing [].
Proof.
  split; [reflexivity|].
  intros [H _]. vm_compute in H. discriminate H.
Qed.

(** C9, as the code has it. The three variants of setSCTPNoDelay are the same
    computation: for every provider, handle, boolean and trace they make the
    same calls and return the same value. On a handle that can be held open
    that is one request of the option (IPPROTO_SCTP, SCTP_NODELAY,
    boolint(noDelay)) with the kernel's error decorated with "setsockopt"; on
    a handle that is closing, nothing is requested and the handle's error is
    returned undecorated; on a nil handle every variant panics. *)
Theorem setSCTPNoDelay_variants (w : World) (fd : option netFD) (b : bool)
    (tr : Trace) :
  setSCTPNoDelay_posix fd b w tr = setSCTPNoDelay fd b w tr /\
  setSCTPNoDelay_posix_sysfd fd b w tr = setSCTPNoDelay fd b w tr /\
  setSCTPNoDelay fd b w tr =
    match fd with
    | Some f => setOption w f b tr
    | None => (Panicked, tr)
    end.
Proof.
  split; [reflexivity|]. split.
  - destruct fd as [f|]; [|reflexivity].
    unfold setSCTPNoDelay_posix_sysfd, setSCTPNoDelay, pfd_SetsockoptInt,
      netFD_incref, netFD_decref, syscall_SetsockoptInt, bind, call, deref, ret.
    destruct (respond w bool tr (fdmu_incref f)); [|reflexivity].
    now rewrite decorate_errno.
  - destruct fd as [f|]; [apply setSCTPNoDelay_run | reflexivity].
Qed.

(* ================================================================== *)
(** * Construction of a connection *)
(* ================================================================== *)

Lemma countNoDelayRequests_app (s v : Z) (t1 t2 : Trace) :
  countNoDelayRequests s v (t1 ++ t2) =
  (countNoDelayRequests s v t1 + countNoDelayRequests s v t2)%nat.
Proof.
  unfold countNoDelayRequests. now rewrite filter_app, length_app.
Qed.

Lemma setOption_trace (w : World) (f : netFD) (b : bool) (tr : Trace) :
  snd (setOption w f b tr) =
  tr ++ ev (fdmu_incref f)
        :: (if respond w bool tr (fdmu_incref f)
            then [ev (setsockopt (sysfd f) syscall.IPPROTO_SCTP
                        syscall.SCTP_NODELAY (boolint b));
                  ev (fdmu_decref f)]
            else []).
Proof.
  unfold setOption. destruct (respond w bool tr (fdmu_incref f)); reflexivity.
Qed.

Lemma newSCTPConn_run (w : World) (fd : netFD) (tr : Trace) :
  newSCTPConn (Some fd) w tr =
  (Returned (Some (mkSCTPConn (Some fd))), snd (setOption w fd true tr)).
Proof.
  unfold newSCTPConn, bind. simpl c_fd. rewrite setSCTPNoDelay_run.
  unfold setOption. destruct (respond w bool tr (fdmu_incref fd)); reflexivity.
Qed.

(** C5. Constructing a connection on a handle runs setSCTPNoDelay(fd, true)
    exactly once and returns the connection whatever that call answered: the
    calls made are those of one such run, the no-delay option is requested
    from the kernel once (not at all if the handle refuses to be held), and
    the result is the connection on that handle for every provider. A
    successful dial and a successful accept return a connection so
    constructed. *)
Theorem newSCTPConn_nodelay (w : World) (fd : netFD) (tr : Trace) :
  newSCTPConn (Some fd) w tr =
    (Returned (Some (mkSCTPConn (Some fd))),
     snd (setSCTPNoDelay (Some fd) true w tr)) /\
  countNoDelayRequests (sysfd fd) 1 (snd (newSCTPConn (Some fd) w tr)) =
    (countNoDelayRequests (sysfd fd) 1 tr
     + if respond w bool tr (fdmu_incref fd) then 1 else 0)%nat /\
  (forall ctx network la ra,
      respond w _ tr (internetSocket ctx network la ra syscall.SOCK_STREAM
                        syscall.IPPROTO_SCTP "dial") = (Some fd, None) ->
      doDialSCTP ctx network la ra w tr =
        newSCTPConn_result fd w
          (tr ++ [ev (internetSocket ctx network la ra syscall.SOCK_STREAM
                        syscall.IPPROTO_SCTP "dial")])) /\
  (forall lfd,
      respond w _ tr (netFD_accept lfd) = (Some fd, None) ->
      accept (Some (mkSCTPListener (Some lfd))) w tr =
        newSCTPConn_result fd w (tr ++ [ev (netFD_accept lfd)])).
Proof.
  rewrite newSCTPConn_run, setSCTPNoDelay_run. split; [reflexivity|]. split.
  - simpl snd. rewrite setOption_trace, countNoDelayRequests_app.
    f_equal. destruct (respond w bool tr (fdmu_incref fd)); [|reflexivity].
    unfold countNoDelayRequests. simpl. now rewrite Z.eqb_refl.
  - split.
    + intros ctx network la ra H.
      unfold doDialSCTP, newSCTPConn_result. rewrite bind_call, H.
      unfold bind. now rewrite newSCTPConn_run, setSCTPNoDelay_run.
    + intros lfd H.
      unfold accept, listener_fd, newSCTPConn_result.
      unfold bind at 1 2. simpl. rewrite bind_call, H.
      unfold bind. now rewrite newSCTPConn_run, setSCTPNoDelay_run.
Qed.

(** With a kernel that refuses the option, setSCTPNoDelay reports the
    refusal, and the connection is constructed all the same; a dial and an
    accept that obtained a handle return the connection on it. *)
Lemma newSCTPConn_nodelay_witness :
  fst (setSCTPNoDelay (Some fd_conn) true world_noprotoopt []) =
    Returned (Some (SyscallError "setsockopt" (Errno 92))) /\
  fst (newSCTPConn (Some fd_conn) world_noprotoopt []) =
    Returned (Some (mkSCTPConn (Some fd_conn))) /\
  countNoDelayRequests (sysfd fd_conn) 1
    (snd (newSCTPConn (Some fd_conn) world_noprotoopt [])) = 1%nat /\
  fst (doDialSCTP Background "sctp" None (Some addr_lo_9000) world_ok []) =
    Returned (Some (mkSCTPConn (Some fd_conn)), None) /\
  fst (accept (Some (mkSCTPListener (Some fd_listen))) world_ok []) =
    Returned (Some (mkSCTPConn (Some fd_conn)), None).
Proof.
  split; [reflexivity|].
  destruct (newSCTPConn_nodelay world_noprotoopt fd_conn [])
    as (Hnew & Hcount & _ & _).
  destruct (newSCTPConn_nodelay world_ok fd_conn [])
    as (_ & _ & Hdial & Haccept).
  split; [now rewrite Hnew|]. split; [exact Hcount|]. split.
  - now rewrite (Hdial Background "sctp" None (Some addr_lo_9000) eq_refl).
  - now rewrite (Haccept fd_listen eq_refl).
Defined.

(* ================================================================== *)
(** * Resolving: the network decides whether the resolver is consulted *)
(* ================================================================== *)

Lemma resolvable_spec (network : string) :
  resolvable network = sctpNetwork network || String.eqb network "".
Proof.
  unfold resolvable, sctpNetwork. simpl. now rewrite orb_false_r, !orb_assoc.
Qed.

(** C6. ResolveSCTPAddr consults the name resolver exactly when the network
    is "sctp", "sctp4", "sctp6" or the empty string: it then makes one call
    of the resolver, on the network itself or on "sctp" for the empty string,
    and nothing else. For every other network string it fails with
    UnknownNetworkError on that string and calls nothing. *)
Theorem ResolveSCTPAddr_network (w : World) (network address : string)
    (tr : Trace) :
  if resolvable network then
    snd (ResolveSCTPAddr network address w tr) =
      tr ++ [ev (internetAddrList Background
                   (if String.eqb network "" then "sctp" else network)
                   address)]
  else
    ResolveSCTPAddr network address w tr =
      (Returned (None, Some (UnknownNetworkError network)), tr).
Proof.
  assert (Hrun : forall nw,
    snd (resolveOn nw address w tr)
    = tr ++ [ev (internetAddrList Background nw address)]).
  { intros nw. unfold resolveOn. rewrite bind_call.
    destruct (respond w _ tr (internetAddrList Background nw address))
      as [addrs [e|]]; [reflexivity|].
    unfold bind, world, assertSCTPAddr, ret, panic.
    destruct (forResolve w addrs nw address); reflexivity. }
  rewrite resolvable_spec. unfold ResolveSCTPAddr.
  destruct (sctpNetwork network) eqn:Hn; simpl orb; cbv iota.
  - replace (String.eqb network "") with false; [apply Hrun|].
    apply sctpNetwork_spec in Hn. simpl in Hn.
    destruct Hn as [<-|[<-|[<-|[]]]]; reflexivity.
  - destruct (String.eqb network ""); [apply Hrun | reflexivity].
Qed.

(* ================================================================== *)
(** * ReadFrom on a live connection *)
(* ================================================================== *)

(** C8. On a live connection ReadFrom returns the number of bytes that the
    transfer moved (through the fast path when it handled the transfer,
    through the generic copy otherwise), with the calls of the transfer and
    no other. The error of the transfer is surfaced so: none stays none; end
    of input ([io.EOF]) is passed on as it is, without decoration; any other
    error is wrapped in an OpError with operation "read", the network and the
    two endpoint addresses of the handle. An OpError around [io.EOF] is never
    what ReadFrom adds. *)
Theorem ReadFrom_live (w : World) (fd : netFD) (r : Reader) (tr : Trace) :
  match transfer w fd r tr with
  | (n, err, tr') =>
      ReadFrom (Some (mkSCTPConn (Some fd))) r w tr =
        (Returned (n, surfaced fd err), tr') /\
      (err = None <-> surfaced fd err = None) /\
      (err = Some io_EOF <-> surfaced fd err = Some io_EOF) /\
      (forall e, err = Some e -> e <> io_EOF ->
                 surfaced fd err =
                 Some (OpError "read" (net fd) (laddr fd) (raddr fd) e)) /\
      (forall op network source addr,
          surfaced fd err <> Some (OpError op network source addr io_EOF))
  end.
Proof.
  assert (Hs : forall err : option error,
    (err = None <-> surfaced fd err = None) /\
    (err = Some io_EOF <-> surfaced fd err = Some io_EOF) /\
    (forall e, err = Some e -> e <> io_EOF ->
               surfaced fd err =
               Some (OpError "read" (net fd) (laddr fd) (raddr fd) e)) /\
    (forall op network source addr,
        surfaced fd err <> Some (OpError op network source addr io_EOF))).
  { intros [e|]; repeat split; try discriminate;
      try (destruct e; simpl; intros; discriminate);
      try (destruct e; simpl; intros H; try discriminate H; reflexivity).
    intros e' [= ->] He. destruct e'; try reflexivity. now elim He. }
  unfold transfer.
  cbv beta iota zeta delta
    [ReadFrom readFrom SCTPConn_ok conn_fd conn_ok c_fd negb
     bind call ret deref panic].
  destruct (respond w _ tr (sendFile fd r)) as [[n err] [|]]; cbv beta iota.
  - split; [|apply Hs]. destruct err as [[]|]; reflexivity.
  - destruct (respond w _ _ (genericReadFrom _ r)) as [n' err'].
    split; [|apply Hs]. rewrite <- app_assoc.
    destruct err' as [[]|]; reflexivity.
Qed.

(* ================================================================== *)
(** * Listening without a local address *)
(* ================================================================== *)

(** C10. On the networks "sctp", "sctp4" and "sctp6", ListenSCTP with a nil
    local address is ListenSCTP with the zero SCTPAddr (nil IP, port 0, a
    wildcard): the same calls, the same result. The nil address is no cause
    of failure: the provider is asked to listen on the zero address, a handle
    it returns comes back as the listener, and only an error of the provider
    makes the call fail. *)
Theorem ListenSCTP_nil_laddr (w : World) (network : string) (tr : Trace) :
  In network ["sctp"; "sctp4"; "sctp6"] ->
  ListenSCTP network None w tr = ListenSCTP network (Some SCTPAddr_zero) w tr /\
  isWildcard (Some SCTPAddr_zero) = true /\
  ListenSCTP network None w tr =
    (Returned
       (match respond w _ tr (listenCall network) with
        | (_, Some e) =>
            (None, Some (OpError "listen" network AddrNil
                           (AddrSCTP SCTPAddr_zero) e))
        | (fd, None) => (Some (mkSCTPListener fd), None)
        end),
     tr ++ [ev (listenCall network)]).
Proof.
  intros Hn. apply sctpNetwork_spec in Hn.
  split; [unfold ListenSCTP; now rewrite Hn|]. split; [reflexivity|].
  unfold ListenSCTP, listenSCTP, listenCall. rewrite Hn.
  cbv beta iota zeta delta [negb]. rewrite bind_bind, bind_call.
  destruct (respond w _ tr _) as [fd [e|]]; reflexivity.
Qed.

Lemma ListenSCTP_nil_laddr_witness :
  ListenSCTP "sctp4" None world_ok [] =
    ListenSCTP "sctp4" (Some SCTPAddr_zero) world_ok [] /\
  fst (ListenSCTP "sctp4" None world_ok []) =
    Returned (Some (mkSCTPListener (Some fd_conn)), None).
Proof.
  assert (Hn : In "sctp4" ["sctp"; "sctp4"; "sctp6"]) by (simpl; tauto).
  destruct (ListenSCTP_nil_laddr world_ok "sctp4" [] Hn) as (Heq & _ & Hrun).
  split; [exact Heq|]. now rewrite Hrun.
Defined.

(* ================================================================== *)
(** * Addresses reported by the kernel; wildcards and families *)
(* ================================================================== *)

Lemma family_long (s : SCTPAddr) :
  (4 < len (sIP s))%nat ->
  (IPv4Mapped (sIP s) /\ family (Some s) = syscall.AF_INET) \/
  (~ IPv4Mapped (sIP s) /\ family (Some s) = syscall.AF_INET6).
Proof.
  intros Hgt. unfold family.
  destruct (Nat.leb_spec (len (sIP s)) IPv4len) as [Hle|_];
    [unfold IPv4len in Hle; lia|].
  pose proof (To4_long (sIP s) Hgt) as HT.
  destruct (To4 (sIP s)) as [v|].
  - left. split; [|reflexivity]. apply HT. discriminate.
  - right. split; [|reflexivity]. intros H. apply HT in H. now apply H.
Qed.

Lemma arraySlice_length {n : nat} (a : byteArray n) :
  List.length (arraySlice a) = n.
Proof. exact (proj2_sig a). Qed.

(** X1. A socket address that the kernel reports as IPv4 converts to an
    SCTPAddr with its four bytes, its port and no zone, of the v4 family; one
    that it reports as IPv6 converts to an SCTPAddr with its sixteen bytes,
    its port and the name of its zone, of the v6 family unless the bytes are
    an IPv4-mapped address, and of the v4 family then; what is no internet
    address converts to the nil address. *)
Theorem sockaddrToSCTP_family (zoneCache_name : Z -> string) :
  (forall p a,
      sockaddrToSCTP zoneCache_name (Some (SockaddrInet4 p a))
      = AddrSCTP (mkSCTPAddr (Some (arraySlice a)) p "") /\
      family (Some (mkSCTPAddr (Some (arraySlice a)) p "")) = syscall.AF_INET) /\
  (forall p z a,
      sockaddrToSCTP zoneCache_name (Some (SockaddrInet6 p z a))
      = AddrSCTP (mkSCTPAddr (Some (arraySlice a)) p (zoneCache_name z)) /\
      (family (Some (mkSCTPAddr (Some (arraySlice a)) p (zoneCache_name z)))
       = syscall.AF_INET6 <-> ~ IPv4Mapped (Some (arraySlice a))) /\
      (family (Some (mkSCTPAddr (Some (arraySlice a)) p (zoneCache_name z)))
       = syscall.AF_INET <-> IPv4Mapped (Some (arraySlice a)))) /\
  (forall name,
      sockaddrToSCTP zoneCache_name (Some (SockaddrUnix name)) = AddrNil) /\
  sockaddrToSCTP zoneCache_name None = AddrNil.
Proof.
  split; [|split; [|split; reflexivity]].
  - intros p a. split; [reflexivity|].
    unfold family. simpl sIP. unfold len.
    now rewrite arraySlice_length.
  - intros p z a. split; [reflexivity|].
    set (s := mkSCTPAddr (Some (arraySlice a)) p (zoneCache_name z)).
    destruct (family_long s) as [[Hm Hf]|[Hm Hf]].
    + simpl. rewrite arraySlice_length. lia.
    + rewrite Hf. split; split; try discriminate; try reflexivity;
        [intros Hn; now elim Hn | intros _; exact Hm].
    + rewrite Hf. split; split; try discriminate; try reflexivity;
        [intros _; exact Hm | intros H; now elim Hm].
Qed.

(** X2. A converted kernel address is a wildcard exactly when its bytes are
    those of an unspecified address: four zero bytes for IPv4; sixteen zero
    bytes, or 0.0.0.0 in IPv4-mapped form, for IPv6. Port and zone play no
    part. *)
Theorem sockaddrToSCTP_isWildcard (zoneCache_name : Z -> string) :
  (forall p a,
      isWildcard (asSCTPAddr (sockaddrToSCTP zoneCache_name
                                (Some (SockaddrInet4 p a)))) = true
      <-> arraySlice a = [x00; x00; x00; x00]) /\
  (forall p z a,
      isWildcard (asSCTPAddr (sockaddrToSCTP zoneCache_name
                                (Some (SockaddrInet6 p z a)))) = true
      <-> arraySlice a = repeat x00 16 \/
          arraySlice a = v4InV6Prefix ++ [x00; x00; x00; x00]).
Proof.
  split.
  - intros p a. simpl. rewrite IsUnspecified_spec. unfold unspecifiedIP.
    pose proof (arraySlice_length a) as Hl. split.
    + intros [H|[H|H]]; injection H as H; [exact H | |];
        rewrite H in Hl; discriminate Hl.
    + intros ->. now left.
  - intros p z a. simpl. rewrite IsUnspecified_spec. unfold unspecifiedIP.
    pose proof (arraySlice_length a) as Hl. split.
    + intros [H|[H|H]]; injection H as H;
        [rewrite H in Hl; discriminate Hl | now right | now left].
    + intros [-> | ->]; [right; now right | right; now left].
Qed.

(** X3. A wildcard address is of the v6 family in one case only: when its IP
    is "::", sixteen zero bytes. The nil address, the address without IP and
    0.0.0.0 in either form are wildcards of the v4 family. *)
Theorem wildcard_family (a : option SCTPAddr) :
  isWildcard a = true ->
  (family a = syscall.AF_INET6 <->
   exists s, a = Some s /\ sIP s = IPv6unspecified).
Proof.
  destruct a as [[ip p z]|]; simpl.
  2:{ intros _. split; [discriminate | intros (s & H & _); discriminate H]. }
  destruct ip as [l|].
  2:{ intros _. split; [discriminate|]. intros (s & H & E).
      injection H as <-. discriminate E. }
  rewrite IsUnspecified_spec. intros [H|[H|H]]; injection H as ->.
  - split; [discriminate|]. intros (s & H & E).
    injection H as <-. discriminate E.
  - split; [discriminate|]. intros (s & H & E).
    injection H as <-. discriminate E.
  - split; [|reflexivity]. intros _. now eexists.
Qed.

Lemma wildcard_family_witness :
  isWildcard (Some (mkSCTPAddr IPv6unspecified 0 "")) = true /\
  family (Some (mkSCTPAddr IPv6unspecified 0 "")) = syscall.AF_INET6 /\
  family (Some (mkSCTPAddr IPv4zero 0 "")) <> syscall.AF_INET6.
Proof.
  split; [reflexivity|]. split.
  - apply (wildcard_family (Some (mkSCTPAddr IPv6unspecified 0 "")) eq_refl).
    now eexists.
  - intros H.
    apply (wildcard_family (Some (mkSCTPAddr IPv4zero 0 "")) eq_refl) in H.
    destruct H as (s & Hs & E). injection Hs as <-. discriminate E.
Defined.

(* ================================================================== *)
(** * What the operations of a connection can return and call *)
(* ================================================================== *)

(** Running a computation down to the answers of the provider, then taking
    the cases of each answer it inspects. *)
Ltac run_go :=
  cbv beta iota zeta delta
    [runConnOp SCTPConn_ok ReadFrom readFrom CloseRead CloseWrite SetLinger
     SetKeepAlive SetKeepAlivePeriod SetNoDelay setSCTPNoDelay
     pfd_SetsockoptInt netFD_incref netFD_decref syscall_SetsockoptInt
     runListenerOp AcceptSCTP Accept accept Listener_Close close
     SetDeadline File_ file_ listener_fd newSCTPConn conn_fd
     DialSCTP dialSCTP doDialSCTP ListenSCTP listenSCTP
     ResolveSCTPAddr resolveOn assertSCTPAddr world
     bind call ret deref panic
     conn_ok ok c_fd l_fd negb fst snd].

Ltac answer_cases :=
  repeat first
    [ progress cbv beta iota
    | match goal with
      | |- context [respond ?w ?R ?t ?c] => destruct (respond w R t c) eqn:?
      end
    | match goal with
      | |- context [match ?x with _ => _ end] => is_var x; destruct x
      end
    | match goal with
      | |- context [if ?x then _ else _] => destruct x eqn:?
      end ].

Lemma filter_snoc {A : Type} (f : A -> bool) (l : list A) (x : A) :
  filter f (l ++ [x]) = filter f l ++ (if f x then [x] else []).
Proof. now rewrite filter_app. Qed.

(** X4. On a connection that is not nil, no operation panics, whatever the
    handle (nil included) and whatever the provider answers, and the error it
    returns is one of: none; EINVAL, on a nil handle only; the bare [io.EOF],
    from ReadFrom only; or an OpError that names the operation ("read",
    "close" or "set") and carries the network and the two addresses of the
    handle around the error of the provider. (Close, inherited from [conn],
    is not in the SCTP files and is left aside.) *)
Theorem conn_op_errors (op : ConnOp) (c : SCTPConn) (w : World)
    (tr : Trace) :
  op <> opClose ->
  exists r tr',
    runConnOp op (Some c) w tr = (Returned r, tr') /\
    connErrorShape op (Some c) (connError r).
Proof.
  intros Hop.
  destruct c as [[fd|]].
  2: destruct op; try (now elim Hop);
     (eexists _, _; split; [reflexivity|]; left; split; reflexivity).
  destruct op; try (now elim Hop); run_go; answer_cases;
    (eexists _, _; split; [reflexivity|]); simpl; try exact I;
    try (right; right; eexists _, _; split; reflexivity).
  all: right; left; split; [now eexists|];
    destruct e; try discriminate; reflexivity.
Qed.

Lemma conn_op_errors_witness :
  exists r tr',
    runConnOp (opSetNoDelay false) (Some (mkSCTPConn (Some fd_conn)))
      world_noprotoopt [] = (Returned r, tr') /\
    connErrorShape (opSetNoDelay false) (Some (mkSCTPConn (Some fd_conn)))
      (connError r).
Proof.
  apply (conn_op_errors (opSetNoDelay false) (mkSCTPConn (Some fd_conn))
           world_noprotoopt []).
  discriminate.
Defined.

(** X5. No operation of a connection other than Close releases the handle:
    the calls it adds to the trace hold no [netFD.Close], no opening of a
    socket either, so an option that the provider refuses leaves the
    connection open. *)
Theorem conn_op_keeps_handle (op : ConnOp) (c : option SCTPConn) (w : World)
    (tr : Trace) :
  op <> opClose ->
  filter isHandleClose (snd (runConnOp op c w tr)) = filter isHandleClose tr /\
  filter isInternetSocket (snd (runConnOp op c w tr))
  = filter isInternetSocket tr.
Proof.
  intros Hop.
  destruct c as [[[fd|]]|].
  2,3: destruct op; try (now elim Hop); split; reflexivity.
  destruct op; try (now elim Hop); run_go; answer_cases;
    cbn [fst snd]; rewrite ?filter_snoc; cbn [isHandleClose isInternetSocket ev];
    rewrite ?app_nil_r; split; reflexivity.
Qed.

Lemma conn_op_keeps_handle_witness :
  filter isHandleClose
    (snd (runConnOp (opSetLinger 0) (Some (mkSCTPConn (Some fd_conn)))
            world_failing [])) = [] /\
  filter isInternetSocket
    (snd (runConnOp (opSetLinger 0) (Some (mkSCTPConn (Some fd_conn)))
            world_failing [])) = [].
Proof.
  apply (conn_op_keeps_handle (opSetLinger 0)
           (Some (mkSCTPConn (Some fd_conn))) world_failing []).
  discriminate.
Defined.

(** X6. SetNoDelay on a live connection holds the handle, requests the value
    1 or 0 of (IPPROTO_SCTP, SCTP_NODELAY) on the socket of the handle and
    lets the handle go. A refusal of the kernel comes back decorated twice,
    as an OpError "set" around a SyscallError "setsockopt" around the error
    number; a handle that is closing gives an OpError "set" around its own
    error, and nothing is requested of the kernel. *)
Theorem SetNoDelay_live (w : World) (fd : netFD) (b : bool) (tr : Trace) :
  SetNoDelay (Some (mkSCTPConn (Some fd))) b w tr =
    if respond w bool tr (fdmu_incref fd) then
      (Returned
         (let e := respond w Z (tr ++ [ev (fdmu_incref fd)])
                     (setsockopt (sysfd fd) syscall.IPPROTO_SCTP
                        syscall.SCTP_NODELAY (if b then 1 else 0)) in
          if e =? 0 then None
          else Some (OpError "set" (net fd) (laddr fd) (raddr fd)
                       (SyscallError "setsockopt" (Errno e)))),
       tr ++ [ev (fdmu_incref fd);
              ev (setsockopt (sysfd fd) syscall.IPPROTO_SCTP
                    syscall.SCTP_NODELAY (if b then 1 else 0));
              ev (fdmu_decref fd)])
    else
      (Returned (Some (OpError "set" (net fd) (laddr fd) (raddr fd) errClosing)),
       tr ++ [ev (fdmu_incref fd)]).
Proof.
  unfold SetNoDelay, SCTPConn_ok.
  cbv beta iota delta [bind deref ret conn_ok c_fd negb].
  rewrite setSCTPNoDelay_run. unfold setOption, boolint.
  destruct (respond w bool tr (fdmu_incref fd)); [|reflexivity].
  cbv zeta. destruct (_ =? 0); reflexivity.
Qed.

(** X7. ReadFrom on a live connection tries the fast path first. When the
    fast path handled the transfer, its count and its error are what
    ReadFrom surfaces and the generic copy is never started; when it did not,
    its count and error are dropped and those of the generic copy are
    surfaced. *)
Theorem ReadFrom_paths (w : World) (fd : netFD) (r : Reader) (tr : Trace) :
  ReadFrom (Some (mkSCTPConn (Some fd))) r w tr =
    match respond w _ tr (sendFile fd r) with
    | (n, err, true) =>
        (Returned (n, surfaced fd err), tr ++ [ev (sendFile fd r)])
    | (_, _, false) =>
        match respond w _ (tr ++ [ev (sendFile fd r)])
                (genericReadFrom (mkSCTPConn (Some fd)) r) with
        | (n, err) =>
            (Returned (n, surfaced fd err),
             tr ++ [ev (sendFile fd r);
                    ev (genericReadFrom (mkSCTPConn (Some fd)) r)])
        end
    end.
Proof.
  run_go.
  destruct (respond w _ tr (sendFile fd r)) as [[n err] [|]]; cbv beta iota.
  - destruct err as [[]|]; reflexivity.
  - destruct (respond w _ _ (genericReadFrom _ r)) as [n' err'].
    rewrite <- app_assoc. destruct err' as [[]|]; reflexivity.
Qed.

(* ================================================================== *)
(** * What the operations of a listener can return *)
(* ================================================================== *)

(** X8. An operation of a listener that has an error result (AcceptSCTP,
    Accept, Close, SetDeadline, File) returns either no error, or an error
    and no value: EINVAL on a dead listener, and otherwise an OpError that
    names the operation ("accept", "close", "set", "file"), the network and
    the local address of the handle, with a nil source. It panics in one
    case only: an accept to which the provider answered with neither a
    handle nor an error. *)
Theorem listener_op_results (op : ListenerOp) (l : option SCTPListener)
    (w : World) (tr : Trace) :
  op <> opAddr_ ->
  match fst (runListenerOp op l w tr) with
  | Returned r => listenerResultShape op l r
  | Panicked =>
      (op = opAcceptSCTP \/ op = opAccept) /\
      exists fd,
        l = Some (mkSCTPListener (Some fd)) /\
        respond w _ tr (netFD_accept fd) = (None, None)
  end.
Proof.
  intros Hop.
  destruct l as [[[fd|]]|].
  2,3: destruct op; try (now elim Hop);
       (split; [reflexivity|]; left; split; reflexivity).
  destruct op; try (now elim Hop); run_go; answer_cases;
    unfold listenerResultShape; cbn [reportedError hasValue listenerError];
    try exact I;
    try (split; [reflexivity|]; right; eexists _, _; split; reflexivity);
    (split; [tauto|]; eexists; split; [reflexivity | assumption]).
Qed.

Lemma listener_op_results_witness :
  listenerResultShape opFile (Some (mkSCTPListener (Some fd_listen)))
    (resFile None
       (Some (OpError "file" "sctp" AddrNil (AddrSCTP addr_lo_9000) (Errno 98)))).
Proof.
  exact (listener_op_results opFile (Some (mkSCTPListener (Some fd_listen)))
           world_failing [] ltac:(discriminate)).
Defined.

(** X9. Accept and AcceptSCTP are the same computation. On a live listener
    they make one accept on the handle; an error of the provider comes back
    as an OpError "accept" with no connection and no option set, even if the
    provider handed a handle along with it; a handle without error becomes
    the connection on that new handle, constructed with the no-delay
    default. *)
Theorem Accept_AcceptSCTP (w : World) (l : option SCTPListener) (fd : netFD)
    (tr : Trace) :
  Accept l w tr = AcceptSCTP l w tr /\
  AcceptSCTP (Some (mkSCTPListener (Some fd))) w tr =
    match respond w _ tr (netFD_accept fd) with
    | (_, Some e) =>
        (Returned (None, Some (OpError "accept" (net fd) AddrNil (laddr fd) e)),
         tr ++ [ev (netFD_accept fd)])
    | (Some nfd, None) => newSCTPConn_result nfd w (tr ++ [ev (netFD_accept fd)])
    | (None, None) => (Panicked, tr ++ [ev (netFD_accept fd)])
    end.
Proof.
  split; [reflexivity|].
  unfold AcceptSCTP. cbn [ok l_fd negb]. cbv iota.
  unfold accept, listener_fd. unfold bind at 1 2 3. cbn [deref ret l_fd].
  cbv beta iota. rewrite bind_call.
  destruct (respond w _ tr (netFD_accept fd)) as [[nfd|] [e|]];
    try reflexivity.
  unfold bind at 1. rewrite newSCTPConn_run.
  unfold newSCTPConn_result. now rewrite setSCTPNoDelay_run.
Qed.

(* ================================================================== *)
(** * Dialing and listening: every path *)
(* ================================================================== *)

Lemma not_sctpNetwork (network : string) :
  ~ In network ["sctp"; "sctp4"; "sctp6"] -> sctpNetwork network = false.
Proof.
  intros H. destruct (sctpNetwork network) eqn:E; [|reflexivity].
  apply sctpNetwork_spec in E. now elim H.
Qed.

(** X10. On a network other than "sctp", "sctp4" and "sctp6", DialSCTP and
    ListenSCTP call nothing, neither the provider nor the test hook, and
    fail with UnknownNetworkError on that network, decorated with the
    operation and the addresses as they were given: a nil local address of
    ListenSCTP is still nil in the error. *)
Theorem unknown_network_refused (network : string)
    (la ra : option SCTPAddr) (w : World) (tr : Trace) :
  ~ In network ["sctp"; "sctp4"; "sctp6"] ->
  DialSCTP network la ra w tr =
    (Returned (None, Some (OpError "dial" network (opAddr la) (opAddr ra)
                             (UnknownNetworkError network))), tr) /\
  ListenSCTP network la w tr =
    (Returned (None, Some (OpError "listen" network AddrNil (opAddr la)
                             (UnknownNetworkError network))), tr).
Proof.
  intros H. apply not_sctpNetwork in H.
  unfold DialSCTP, ListenSCTP. rewrite H. split; reflexivity.
Qed.

Lemma unknown_network_refused_witness :
  DialSCTP "udp" None (Some addr_lo_9000) world_hooked [] =
    (Returned (None, Some (OpError "dial" "udp" AddrNil (AddrSCTP addr_lo_9000)
                             (UnknownNetworkError "udp"))), []) /\
  ListenSCTP "udp" None world_hooked [] =
    (Returned (None, Some (OpError "listen" "udp" AddrNil AddrNil
                             (UnknownNetworkError "udp"))), []).
Proof.
  apply (unknown_network_refused "udp" None (Some addr_lo_9000) world_hooked []).
  simpl. intros [H|[H|[H|[]]]]; discriminate H.
Defined.

(** X11. Without test hook, a dial on an SCTP network to a remote address
    opens one stream socket of protocol SCTP in mode "dial" on the two
    addresses as given. An error of the provider comes back as an OpError
    "dial" with both addresses, without connection and without any option
    set; a handle becomes the connection on it, with the no-delay default
    applied; neither handle nor error is a nil dereference. *)
Theorem DialSCTP_run (w : World) (network : string) (la : option SCTPAddr)
    (ra : SCTPAddr) (tr : Trace) :
  In network ["sctp"; "sctp4"; "sctp6"] ->
  testHookDialSCTP w = false ->
  DialSCTP network la (Some ra) w tr =
    match respond w _ tr (dialCall network la (Some ra)) with
    | (_, Some e) =>
        (Returned (None, Some (OpError "dial" network (opAddr la) (AddrSCTP ra) e)),
         tr ++ [ev (dialCall network la (Some ra))])
    | (Some fd, None) =>
        newSCTPConn_result fd w (tr ++ [ev (dialCall network la (Some ra))])
    | (None, None) => (Panicked, tr ++ [ev (dialCall network la (Some ra))])
    end.
Proof.
  intros Hn Hhook. apply sctpNetwork_spec in Hn.
  unfold DialSCTP, dialSCTP, doDialSCTP, dialCall. rewrite Hn.
  cbn [negb]. cbv iota. unfold bind at 1 2, world. rewrite Hhook.
  rewrite bind_call.
  destruct (respond w _ tr _) as [[fd|] [e|]]; try reflexivity.
  unfold bind at 1. rewrite newSCTPConn_run.
  unfold newSCTPConn_result. now rewrite setSCTPNoDelay_run.
Qed.

Lemma DialSCTP_run_witness :
  fst (DialSCTP "sctp6" None (Some addr_lo_9000) world_failing []) =
    Returned (None, Some (OpError "dial" "sctp6" AddrNil (AddrSCTP addr_lo_9000)
                            (Errno 98))) /\
  filter isSetsockopt
    (snd (DialSCTP "sctp6" None (Some addr_lo_9000) world_failing [])) = [].
Proof.
  assert (Hn : In "sctp6" ["sctp"; "sctp4"; "sctp6"]) by (simpl; tauto).
  rewrite (DialSCTP_run world_failing "sctp6" None addr_lo_9000 [] Hn eq_refl).
  split; reflexivity.
Defined.

(** X12. With the test hook set, a dial on an SCTP network to a remote
    address calls the hook and nothing else: no socket is opened and no
    option is set. An error of the hook is decorated as an OpError "dial",
    and its connection is then dropped; without error its connection is
    returned as it is. *)
Theorem DialSCTP_hooked (w : World) (network : string) (la : option SCTPAddr)
    (ra : SCTPAddr) (tr : Trace) :
  In network ["sctp"; "sctp4"; "sctp6"] ->
  testHookDialSCTP w = true ->
  DialSCTP network la (Some ra) w tr =
    (Returned
       (match respond w _ tr
                (testHookDialSCTP_call Background network la (Some ra)) with
        | (_, Some e) =>
            (None, Some (OpError "dial" network (opAddr la) (AddrSCTP ra) e))
        | (c, None) => (c, None)
        end),
     tr ++ [ev (testHookDialSCTP_call Background network la (Some ra))]).
Proof.
  intros Hn Hhook. apply sctpNetwork_spec in Hn.
  unfold DialSCTP, dialSCTP. rewrite Hn.
  cbn [negb]. cbv iota. unfold bind at 1 2, world. rewrite Hhook.
  unfold call.
  destruct (respond w _ tr _) as [c [e|]]; reflexivity.
Qed.

Lemma DialSCTP_hooked_witness :
  DialSCTP "sctp" None (Some addr_lo_9000) world_hooked [] =
    (Returned (None, None),
     [ev (testHookDialSCTP_call Background "sctp" None (Some addr_lo_9000))]).
Proof.
  assert (Hn : In "sctp" ["sctp"; "sctp4"; "sctp6"]) by (simpl; tauto).
  exact (DialSCTP_hooked world_hooked "sctp" None addr_lo_9000 [] Hn eq_refl).
Defined.

(** X13. Whatever the network, the addresses and the provider, DialSCTP
    never returns a connection together with an error, and every error it
    returns is an OpError "dial" that carries the network and the two
    addresses as given. Without test hook, a return without error carries a
    live connection; and DialSCTP panics only without test hook. *)
Theorem DialSCTP_results (w : World) (network : string)
    (la ra : option SCTPAddr) (tr : Trace) :
  match fst (DialSCTP network la ra w tr) with
  | Returned (c, None) => testHookDialSCTP w = true \/ conn_ok c = true
  | Returned (c, Some e) =>
      c = None /\
      exists inner,
        e = OpError "dial" network (opAddr la) (opAddr ra) inner
  | Panicked => testHookDialSCTP w = false
  end.
Proof.
  run_go. answer_cases; cbn [fst];
    try (split; [reflexivity | now eexists]);
    try (now left); try (now right); try reflexivity; try assumption.
Qed.

(** X14. ListenSCTP on an SCTP network opens one stream socket of protocol
    SCTP in mode "listen", on the local address given (the zero address for
    nil) and no remote address, and calls nothing else: no option is set on
    a listening handle. An error of the provider comes back as an OpError
    "listen" with a nil source and the address listened on; otherwise the
    listener on the returned handle comes back. *)
Theorem ListenSCTP_run (w : World) (network : string) (la : option SCTPAddr)
    (tr : Trace) :
  In network ["sctp"; "sctp4"; "sctp6"] ->
  ListenSCTP network la w tr =
    (Returned
       (match respond w _ tr (listenCallOn network la) with
        | (_, Some e) =>
            (None,
             Some (OpError "listen" network AddrNil
                     (AddrSCTP (match la with
                                | Some a => a
                                | None => SCTPAddr_zero
                                end)) e))
        | (fd, None) => (Some (mkSCTPListener fd), None)
        end),
     tr ++ [ev (listenCallOn network la)]).
Proof.
  intros Hn. apply sctpNetwork_spec in Hn.
  unfold ListenSCTP, listenSCTP, listenCallOn. rewrite Hn.
  cbv beta iota zeta delta [negb]. rewrite bind_bind, bind_call.
  destruct la as [a|];
    destruct (respond w _ tr _) as [fd [e|]]; reflexivity.
Qed.

Lemma ListenSCTP_run_witness :
  ListenSCTP "sctp" (Some addr_lo_9000) world_failing [] =
    (Returned (None, Some (OpError "listen" "sctp" AddrNil
                             (AddrSCTP addr_lo_9000) (Errno 98))),
     [ev (listenCallOn "sctp" (Some addr_lo_9000))]).
Proof.
  assert (Hn : In "sctp" ["sctp"; "sctp4"; "sctp6"]) by (simpl; tauto).
  exact (ListenSCTP_run world_failing "sctp" (Some addr_lo_9000) [] Hn).
Defined.

(** X15. Whatever the network, the address and the provider, ListenSCTP
    never panics and never returns a listener together with an error; every
    error it returns is an OpError "listen" on the network with a nil
    source, and a return without error carries a listener that is not
    nil. *)
Theorem ListenSCTP_results (w : World) (network : string)
    (la : option SCTPAddr) (tr : Trace) :
  match fst (ListenSCTP network la w tr) with
  | Returned (l, None) => l <> None
  | Returned (l, Some e) =>
      l = None /\
      exists addr inner, e = OpError "listen" network AddrNil addr inner
  | Panicked => False
  end.
Proof.
  run_go. answer_cases; cbn [fst];
    try (split; [reflexivity | now eexists _, _]); discriminate.
Qed.

(** X16. After a ListenSCTP to which the provider answered with a handle,
    the listener is live and Addr() is the local address recorded in that
    handle, which need not be the address that was asked for; Addr() calls
    nothing. *)
Theorem ListenSCTP_then_Addr (w : World) (network : string)
    (la : option SCTPAddr) (fd : netFD) (tr : Trace) :
  In network ["sctp"; "sctp4"; "sctp6"] ->
  respond w _ tr (listenCallOn network la) = (Some fd, None) ->
  exists l,
    fst (ListenSCTP network la w tr) = Returned (Some l, None) /\
    ok (Some l) = true /\
    forall w' tr', Addr_ (Some l) w' tr' = (Returned (laddr fd), tr').
Proof.
  intros Hn Hfd. apply sctpNetwork_spec in Hn.
  exists (mkSCTPListener (Some fd)).
  unfold ListenSCTP, listenSCTP. rewrite Hn.
  cbv beta iota zeta delta [negb]. rewrite bind_bind, bind_call.
  unfold listenCallOn in Hfd. rewrite Hfd. repeat split.
Qed.

Lemma ListenSCTP_then_Addr_witness :
  exists l,
    fst (ListenSCTP "sctp" (Some (mkSCTPAddr ip_127_0_0_1 0 "")) world_ok [])
    = Returned (Some l, None) /\
    ok (Some l) = true /\
    forall w' tr',
      Addr_ (Some l) w' tr' = (Returned (AddrSCTP addr_lo_9001), tr').
Proof.
  assert (Hn : In "sctp" ["sctp"; "sctp4"; "sctp6"]) by (simpl; tauto).
  exact (ListenSCTP_then_Addr world_ok "sctp"
           (Some (mkSCTPAddr ip_127_0_0_1 0 "")) fd_conn [] Hn eq_refl).
Defined.

(* ================================================================== *)
(** * Resolving: what comes back *)
(* ================================================================== *)

(** X17. On a network that it accepts, ResolveSCTPAddr returns an error of
    the resolver as it is, without decoration and without address; without
    error it returns the SCTP address that [forResolve] picks from the
    resolver's list, asked on the same network as the resolver, and panics
    when that pick is no SCTP address. The empty network behaves as "sctp"
    in every respect. *)
Theorem ResolveSCTPAddr_results (w : World) (network address : string)
    (tr : Trace) :
  resolvable network = true ->
  ResolveSCTPAddr "" address w tr = ResolveSCTPAddr "sctp" address w tr /\
  ResolveSCTPAddr network address w tr =
    (match respond w _ tr
             (internetAddrList Background
                (if String.eqb network "" then "sctp" else network) address) with
     | (_, Some e) => Returned (None, Some e)
     | (addrs, None) =>
         match forResolve w addrs
                 (if String.eqb network "" then "sctp" else network) address with
         | AddrSCTP a => Returned (Some a, None)
         | _ => Panicked
         end
     end,
     tr ++ [ev (internetAddrList Background
                  (if String.eqb network "" then "sctp" else network) address)]).
Proof.
  intros Hn. split; [reflexivity|].
  assert (Hrun : forall nw,
    resolveOn nw address w tr =
      (match respond w _ tr (internetAddrList Background nw address) with
       | (_, Some e) => Returned (None, Some e)
       | (addrs, None) =>
           match forResolve w addrs nw address with
           | AddrSCTP a => Returned (Some a, None)
           | _ => Panicked
           end
       end,
       tr ++ [ev (internetAddrList Background nw address)])).
  { intros nw. unfold resolveOn. rewrite bind_call.
    destruct (respond w _ tr _) as [addrs [e|]]; [reflexivity|].
    unfold bind, world, assertSCTPAddr, ret, panic.
    destruct (forResolve w addrs nw address); reflexivity. }
  rewrite resolvable_spec in Hn. unfold ResolveSCTPAddr.
  destruct (sctpNetwork network) eqn:Hs.
  - replace (String.eqb network "") with false; [apply Hrun|].
    apply sctpNetwork_spec in Hs. simpl in Hs.
    destruct Hs as [<-|[<-|[<-|[]]]]; reflexivity.
  - simpl in Hn. rewrite Hn. apply Hrun.
Qed.

Lemma ResolveSCTPAddr_results_witness :
  ResolveSCTPAddr "" "localhost:80" world_ok [] =
    (Returned (Some addr_lo_9000, None),
     [ev (internetAddrList Background "sctp" "localhost:80")]) /\
  fst (ResolveSCTPAddr "sctp4" "localhost:80" world_failing []) =
    Returned (None, Some (Errno 98)).
Proof.
  split.
  - exact (proj2 (ResolveSCTPAddr_results world_ok "" "localhost:80" []
                    eq_refl)).
  - now rewrite (proj2 (ResolveSCTPAddr_results world_failing "sctp4"
                          "localhost:80" [] eq_refl)).
Defined.

(** X18. No operation of a listener other than Close releases a handle: a
    failed accept, a refused deadline or a failed duplication leave the
    listener open. And no operation other than an accept sets a socket
    option. *)
Theorem listener_op_calls (op : ListenerOp) (l : option SCTPListener)
    (w : World) (tr : Trace) :
  (op <> opListenerClose ->
   filter isHandleClose (snd (runListenerOp op l w tr))
   = filter isHandleClose tr) /\
  (op <> opAcceptSCTP -> op <> opAccept ->
   filter isSetsockopt (snd (runListenerOp op l w tr))
   = filter isSetsockopt tr).
Proof.
  destruct l as [[[fd|]]|].
  2,3: destruct op; split; intros; reflexivity.
  split; intros Hop;
    [|intros Hop']; destruct op;
    try (now elim Hop); try (now elim Hop');
    run_go; answer_cases;
    cbn [fst snd]; rewrite ?filter_snoc; cbn [isHandleClose isSetsockopt ev];
    rewrite ?app_nil_r; reflexivity.
Qed.

Lemma listener_op_calls_witness :
  filter isHandleClose
    (snd (runListenerOp opAccept (Some (mkSCTPListener (Some fd_listen)))
            world_failing [])) = [] /\
  filter isSetsockopt
    (snd (runListenerOp opFile (Some (mkSCTPListener (Some fd_listen)))
            world_ok [])) = [].
Proof.
  split.
  - apply (proj1 (listener_op_calls opAccept
                    (Some (mkSCTPListener (Some fd_listen))) world_failing [])).
    discriminate.
  - apply (proj2 (listener_op_calls opFile
                    (Some (mkSCTPListener (Some fd_listen))) world_ok []));
      discriminate.
Defined.
